(** * fan-control: the room controller of [src/lib/RoomControl.js]

    A shallow embedding of the class [RoomControl]: the room status object,
    the transient [fansTrailing] table, the evaluation pass [updateFans] and
    the mutators that store a payload and re-evaluate.

    Conventions of the embedding.
    - Numbers (humidity, thresholds, durations in seconds) are integers [Z];
      timestamps are integers too, in milliseconds, so that
      [moment().diff(t, 'millisecond')] is [now - t] for a [t] that is a
      valid date and [NaN] otherwise.
    - A JS object used as a dictionary ([roomStatus.fans], [roomStatus.lights],
      [fansTrailing]) is a [gmap string _]; a missing key is [undefined].
    - A payload [{value, since}] is an [entry]; an absent member is [None].
    - Effects are recorded in a trace: the MQTT publishes and the calls
      [fansMap[id][speed]()] on the external fan control.  Logging is not
      recorded, except where a debug line raises ([prettyMs] on a duration
      that is [NaN]), which ends the pass like a failing call on the fan
      control. *)

From Stdlib Require Import ZArith Ascii String List.
From stdpp Require Import base option gmap strings list.

Local Open Scope string_scope.
Local Open Scope Z_scope.

(** ** Payloads and the room status *)

(** A payload [{value, since}] as delivered by the dispatcher. *)
Record entry (A : Type) := Entry { value : option A; since : option Z }.
Arguments Entry {A} _ _.
Arguments value {A} _.
Arguments since {A} _.

(** [{}]: neither member present. *)
Definition noEntry {A : Type} : entry A := Entry None None.

(** What [roomStatus.lights[id].value] may hold: a string delivered by a
    light message, or the nested object [{value: 'off'}] that the constructor
    stores (lines 73-77). *)
Inductive lightValue :=
| LText (s : string)
| LNested (s : string).

Global Instance lightValue_eq_dec : EqDecision lightValue.
Proof. solve_decision. Defined.

(** The static configuration of a room. *)
Module Cfg.

Record Fan := {
  id : string;
  label : string;
  minHumidityThreshold : Z;
  maxHumidityThreshold : Z;
  minRunTime : Z;
  lightTimeout : Z;
  trailingTime : Z;
  triggerLights : list string
}.

Record Light := { lightId : string; lightLabel : string }.

Record Room := {
  roomId : string;
  roomLabel : string;
  fans : list Fan;
  lights : list Light
}.

End Cfg.

(** The mutable [roomStatus] object. *)
Module Status.

Record Fan := {
  control : entry string;
  speed : entry string;
  minHumidityThreshold : entry Z;
  maxHumidityThreshold : entry Z;
  minRunTime : entry Z;
  lightTimeout : entry Z;
  trailingTime : entry Z
}.

Record Room := {
  fans : gmap string Fan;
  lights : gmap string (entry lightValue);
  humidity : entry Z;
  temperature : entry Z
}.

End Status.

(** What one evaluation pass does to the outside world. *)
Inductive effect :=
| Publish (roomId fanId : string) (newSpeed : string)
    (* mqttClient.publish(fanSpeed(room.id, fan.id), {value: newSpeed}, {retain: true}) *)
| Actuate (fanId : string) (method : string).
    (* fansMap[fan.id][method]() *)

Global Instance effect_eq_dec : EqDecision effect.
Proof. solve_decision. Defined.

(** Whether the loop body ran to its end or raised: the call on the fan
    control (a [TypeError] when the member is not a function) or a debug
    line that prints a duration (a [TypeError] of [prettyMs] when the
    duration is [NaN]).  Raising leaves the [for] loop and rejects the
    promise of [updateFans]. *)
Inductive outcome := Next | Raised.

Global Instance outcome_eq_dec : EqDecision outcome.
Proof. solve_decision. Defined.

Definition isPublish (e : effect) : bool :=
  match e with Publish _ _ _ => true | Actuate _ _ => false end.

(** ** The dispatcher of the main file ([handleMqttMessage]) *)

Module Main.

(** [topic.split('/')]: the segments between the slashes, empty ones
    included; the empty topic has one empty segment. *)
Fixpoint split (topic : string) : list string :=
  match topic with
  | EmptyString => [EmptyString]
  | String c rest =>
    if Ascii.eqb c "/"%char then EmptyString :: split rest
    else
      match split rest with
      | segment :: segments => String c segment :: segments
      | [] => [String c EmptyString]
      end
  end.

(** A call the handler makes on an entry of [roomMap]; an index past the
    end of the segments is [undefined]. *)
Inductive invocation :=
| FanMember (areaId subArea elementId : option string)
    (* roomMap[areaId][subArea](elementId, data) *)
| Lights (areaId elementId : option string)
    (* roomMap[areaId]['lights'](elementId, data) *)
| Humidity (areaId : option string).
    (* roomMap[areaId]['humidity'](data) *)

(** The calls of [handleMqttMessage(topic, data)], in the order of the three
    [if]s. *)
Definition handleMqttMessage (topic : string) : list invocation :=
  let parts := split topic in
  let area := parts !! 0%nat in
  let areaId := parts !! 1%nat in
  let element := parts !! 2%nat in
  let elementId := parts !! 3%nat in
  let subArea := parts !! 4%nat in
  ((if bool_decide (area = Some "room") && bool_decide (element = Some "fans")
    then [FanMember areaId subArea elementId] else [])
   ++ (if bool_decide (area = Some "room") && bool_decide (element = Some "lights")
       then [Lights areaId elementId] else [])
   ++ (if bool_decide (area = Some "room")
          && bool_decide (element = Some "humidity")
       then [Humidity areaId] else []))%list.

(** A segment without a slash. *)
Fixpoint slashFree (segment : string) : bool :=
  match segment with
  | EmptyString => true
  | String c rest => negb (Ascii.eqb c "/"%char) && slashFree rest
  end.

(** The topic [a/b/c] of the segments [a], [b], [c]. *)
Definition topicOf (segments : list string) : string :=
  String.concat "/" segments.

End Main.

Module RoomControl.

(** The instance: [this.room], [this.roomStatus], [this.fansTrailing]. *)
Record t := Make {
  room : Cfg.Room;
  roomStatus : Status.Room;
  fansTrailing : gmap string bool
}.

(** ** Library calls *)

(** The first number whose text in a template literal is in exponent form
    ([1e+21]). *)
Definition exponentForm : Z := 1000000000000000000000.

(** [ms(`${n}s`)] of the package [millisecond]: a run of digits followed by
    the unit [s] is that many seconds; the text of a negative number and the
    exponent form of a number from [1e21] on do not match the package's
    pattern, and the result is then [0]. *)
Definition ms (n : Z) : Z :=
  if (n <? 0) || (exponentForm <=? n) then 0 else n * 1000.

(** The time values a [Date] can hold: 8.64e15 ms on either side of the
    epoch.  A timestamp outside gives an invalid date. *)
Definition validDate (t : Z) : bool :=
  (-8640000000000000 <=? t) && (t <=? 8640000000000000).

(** [moment().diff(t, 'millisecond')]: the milliseconds from [t] to the
    clock reading, and [NaN] ([None]) when [t] is not a valid date. *)
Definition diff (now t : Z) : option Z :=
  if validDate t then Some (now - t) else None.

(** JS truthiness of a possibly undefined number (a reading or a timestamp):
    [undefined], [null] and [0] are falsy. *)
Definition truthy (t : option Z) : bool :=
  match t with
  | Some z => negb (z =? 0)
  | None => false
  end.

(** [a < b] on numbers that may be [undefined] or [NaN]: a comparison with
    either is false. *)
Definition lessThan (a b : option Z) : bool :=
  match a, b with
  | Some x, Some y => x <? y
  | _, _ => false
  end.

(** [_.get(roomStatus, ['fans', id, field, 'value'], dflt)]. *)
Definition getFanValue {A : Type} (roomStatus : Status.Room) (id : string)
    (field : Status.Fan -> entry A) (dflt : A) : A :=
  default dflt (Status.fans roomStatus !! id ≫= fun f => value (field f)).

(** [_.get(roomStatus, ['fans', id, 'speed', 'since'], dflt)]. *)
Definition getSpeedSince (roomStatus : Status.Room) (id : string) (dflt : Z) : Z :=
  default dflt (Status.fans roomStatus !! id ≫= fun f => since (Status.speed f)).

(** The members an object literal inherits from [Object.prototype], apart
    from [__proto__]. *)
Definition inheritedMember (key : string) : bool :=
  bool_decide
    (key ∈ ["constructor"; "__defineGetter__"; "__defineSetter__";
            "hasOwnProperty"; "__lookupGetter__"; "__lookupSetter__";
            "isPrototypeOf"; "propertyIsEnumerable"; "toString"; "valueOf";
            "toLocaleString"]).

(** [fansTrailing[id]] read as a condition.  [fansTrailing] is an object
    literal: under a key it does not hold, a member inherited from
    [Object.prototype] is read, which is truthy; [__proto__] reads the
    prototype whatever was assigned to it. *)
Definition trailing (fansTrailing : gmap string bool) (id : string) : bool :=
  bool_decide (id = "__proto__")
  || default (inheritedMember id) (fansTrailing !! id).

(** ** The constants resolved at the head of the loop body (lines 110-121) *)

Definition humidityOf (roomStatus : Status.Room) : option Z :=
  value (Status.humidity roomStatus).

Definition minHumidityThresholdOf (roomStatus : Status.Room) (fan : Cfg.Fan) : Z :=
  getFanValue roomStatus (Cfg.id fan) Status.minHumidityThreshold
    (Cfg.minHumidityThreshold fan).

Definition maxHumidityThresholdOf (roomStatus : Status.Room) (fan : Cfg.Fan) : Z :=
  getFanValue roomStatus (Cfg.id fan) Status.maxHumidityThreshold
    (Cfg.maxHumidityThreshold fan).

Definition minRunTimeOf (roomStatus : Status.Room) (fan : Cfg.Fan) : Z :=
  getFanValue roomStatus (Cfg.id fan) Status.minRunTime (Cfg.minRunTime fan).

Definition lightTimeoutOf (roomStatus : Status.Room) (fan : Cfg.Fan) : Z :=
  getFanValue roomStatus (Cfg.id fan) Status.lightTimeout (Cfg.lightTimeout fan).

Definition trailingTimeOf (roomStatus : Status.Room) (fan : Cfg.Fan) : Z :=
  getFanValue roomStatus (Cfg.id fan) Status.trailingTime (Cfg.trailingTime fan).

Definition controlOf (roomStatus : Status.Room) (fan : Cfg.Fan) : string :=
  getFanValue roomStatus (Cfg.id fan) Status.control "manual".

Definition speedOf (roomStatus : Status.Room) (fan : Cfg.Fan) : string :=
  getFanValue roomStatus (Cfg.id fan) Status.speed "off".

Definition speedSinceOf (now : Z) (roomStatus : Status.Room) (fan : Cfg.Fan) : Z :=
  getSpeedSince roomStatus (Cfg.id fan) now.

(** [moment().diff(speedSince, 'millisecond')] of line 130.  Without a
    recorded [since], [speedSince] is [new Date()], the clock reading itself. *)
Definition elapsedOf (now : Z) (roomStatus : Status.Room) (fan : Cfg.Fan)
    : option Z :=
  match Status.fans roomStatus !! Cfg.id fan ≫= (fun f => since (Status.speed f)) with
  | Some speedSince => diff now speedSince
  | None => Some 0
  end.

(** The condition of line 130: the fan runs and has not run for
    [minRunTime] seconds yet. *)
Definition keepRunning (now : Z) (roomStatus : Status.Room) (fan : Cfg.Fan) : bool :=
  negb (bool_decide (speedOf roomStatus fan = "off"))
  && lessThan (elapsedOf now roomStatus fan)
       (Some (ms (minRunTimeOf roomStatus fan))).

(** The body reaches the automatic handling (line 136): the control is not
    ['manual'] and the minimum run time does not hold the fan. *)
Definition automatic (now : Z) (roomStatus : Status.Room) (fan : Cfg.Fan) : bool :=
  negb (bool_decide (controlOf roomStatus fan = "manual"))
  && negb (keepRunning now roomStatus fan).

(** ** Humidity (lines 138-159) *)

(** [newSpeed] after the block [if(humidity) { ... }]. *)
Definition humiditySpeed (humidity : option Z) (speed : string)
    (minHumidityThreshold maxHumidityThreshold : Z) : string :=
  if truthy humidity then
    let h := default 0 humidity in
    let downToMinThreshold := minHumidityThreshold - 5 in
    let downToMaxThreshold := maxHumidityThreshold - 10 in
    if maxHumidityThreshold <? h then "max"
    else if bool_decide (speed = "max") && (downToMaxThreshold <? h) then "max"
    else if minHumidityThreshold <? h then "min"
    else if bool_decide (speed = "min") && (downToMinThreshold <? h) then "min"
    else "off"
  else "off".

(** ** Trigger lights (lines 161-183) *)

Record lightScan := LightScan {
  minLightOnSince : option Z;
  maxLightOffSince : option Z;
  anyLightOn : bool
}.

(** One turn of the loop over [fan.triggerLights]. *)
Definition scanLight (roomStatus : Status.Room) (acc : lightScan)
    (lightId : string) : lightScan :=
  let lightValue := Status.lights roomStatus !! lightId ≫= value in
  let lightSince := Status.lights roomStatus !! lightId ≫= since in
  if bool_decide (lightValue = Some (LText "on")) then
    LightScan
      (if negb (truthy (minLightOnSince acc))
          || lessThan lightSince (minLightOnSince acc)
       then lightSince else minLightOnSince acc)
      (maxLightOffSince acc)
      true
  else
    LightScan
      (minLightOnSince acc)
      (if negb (truthy (maxLightOffSince acc))
          || lessThan (maxLightOffSince acc) lightSince
       then lightSince else maxLightOffSince acc)
      (anyLightOn acc).

Definition scanLights (roomStatus : Status.Room) (triggerLights : list string)
    : lightScan :=
  fold_left (scanLight roomStatus) triggerLights (LightScan None None false).

(** ** Trailing (lines 185-209) *)

(** Lines 185-195: a trigger light that has been on for longer than
    [lightTimeout] seconds starts trailing. *)
Definition lightsOnStep (now lightTimeout : Z) (sc : lightScan) (id : string)
    (fansTrailing : gmap string bool) : gmap string bool :=
  if anyLightOn sc && truthy (minLightOnSince sc) then
    let lightsOnDuration := diff now (default 0 (minLightOnSince sc)) in
    if lessThan (Some (ms lightTimeout)) lightsOnDuration
    then <[id := true]> fansTrailing
    else fansTrailing
  else fansTrailing.

(** Lines 197-209: with every trigger light off, trailing ends once the last
    one has been off for longer than [trailingTime] seconds. *)
Definition lightsOffStep (now trailingTime : Z) (sc : lightScan) (id : string)
    (fansTrailing : gmap string bool) : gmap string bool :=
  if negb (anyLightOn sc) && trailing fansTrailing id
     && truthy (maxLightOffSince sc) then
    let lightsOffDuration := diff now (default 0 (maxLightOffSince sc)) in
    if lessThan (Some (ms trailingTime)) lightsOffDuration
    then <[id := false]> fansTrailing
    else fansTrailing
  else fansTrailing.

(** [fansTrailing] after lines 185-209. *)
Definition trailingStep (now : Z) (roomStatus : Status.Room) (fan : Cfg.Fan)
    (fansTrailing : gmap string bool) : gmap string bool :=
  let sc := scanLights roomStatus (Cfg.triggerLights fan) in
  lightsOffStep now (trailingTimeOf roomStatus fan) sc (Cfg.id fan)
    (lightsOnStep now (lightTimeoutOf roomStatus fan) sc (Cfg.id fan) fansTrailing).

(** [prettyMs(duration)] in the debug lines 188 and 200 throws a
    [TypeError] when the duration is [NaN]: line 188 is reached when a
    trigger light is on and [minLightOnSince] is truthy, line 200 when none
    is on, the fan trails and [maxLightOffSince] is truthy.  Either comes
    before any write to [fansTrailing]. *)
Definition durationRaises (now : Z) (roomStatus : Status.Room) (fan : Cfg.Fan)
    (fansTrailing : gmap string bool) : bool :=
  let sc := scanLights roomStatus (Cfg.triggerLights fan) in
  (anyLightOn sc && truthy (minLightOnSince sc)
   && negb (bool_decide (is_Some (diff now (default 0 (minLightOnSince sc))))))
  || (negb (anyLightOn sc) && trailing fansTrailing (Cfg.id fan)
      && truthy (maxLightOffSince sc)
      && negb (bool_decide (is_Some (diff now (default 0 (maxLightOffSince sc)))))).

(** [newSpeed] at line 215, given [fansTrailing] as lines 185-209 left it. *)
Definition newSpeedOf (roomStatus : Status.Room) (fan : Cfg.Fan)
    (fansTrailing' : gmap string bool) : string :=
  if trailing fansTrailing' (Cfg.id fan) then "min"
  else humiditySpeed (humidityOf roomStatus) (speedOf roomStatus fan)
         (minHumidityThresholdOf roomStatus fan)
         (maxHumidityThresholdOf roomStatus fan).

Section Pass.

(** The members of the external fan control ([controls.Fan] of
    [@joachimhb/smart-home-shared]) that are functions. *)
Variable fanMethod : string -> bool.

(** [fansMap[fan.id][name]()]. *)
Definition call (name : string) : outcome :=
  if fanMethod name then Next else Raised.

(** ** The body of the loop of [updateFans] (lines 109-219) *)
Definition updateFan (now : Z) (room : Cfg.Room) (roomStatus : Status.Room)
    (fansTrailing : gmap string bool) (fan : Cfg.Fan)
    : gmap string bool * list effect * outcome :=
  let control := controlOf roomStatus fan in
  let speed := speedOf roomStatus fan in
  if bool_decide (control = "manual") then
    (fansTrailing, [Actuate (Cfg.id fan) speed], call speed)
  else if keepRunning now roomStatus fan then
    (fansTrailing, [], Next)
  else if durationRaises now roomStatus fan fansTrailing then
    (fansTrailing, [], Raised)
  else
    let fansTrailing' := trailingStep now roomStatus fan fansTrailing in
    let newSpeed := newSpeedOf roomStatus fan fansTrailing' in
    (fansTrailing',
     ((if bool_decide (speed = newSpeed) then []
       else [Publish (Cfg.roomId room) (Cfg.id fan) newSpeed])
      ++ [Actuate (Cfg.id fan) newSpeed])%list,
     call newSpeed).

(** The loop [for(const fan of room.fans || [])]. *)
Fixpoint updateFansLoop (now : Z) (room : Cfg.Room) (roomStatus : Status.Room)
    (fansTrailing : gmap string bool) (fans : list Cfg.Fan)
    : gmap string bool * list effect * outcome :=
  match fans with
  | [] => (fansTrailing, [], Next)
  | fan :: rest =>
    match updateFan now room roomStatus fansTrailing fan with
    | (fansTrailing1, effects1, Raised) => (fansTrailing1, effects1, Raised)
    | (fansTrailing1, effects1, Next) =>
      match updateFansLoop now room roomStatus fansTrailing1 rest with
      | (fansTrailing2, effects2, o) => (fansTrailing2, (effects1 ++ effects2)%list, o)
      end
    end
  end.

(** [updateFans()], run when the clock reads [now]. *)
Definition updateFans (now : Z) (this : t) : t * list effect * outcome :=
  match updateFansLoop now (room this) (roomStatus this) (fansTrailing this)
          (Cfg.fans (room this)) with
  | (fansTrailing', effects, o) =>
    (Make (room this) (roomStatus this) fansTrailing', effects, o)
  end.

(** ** The mutators (lines 223-281): store the payload, then re-evaluate *)

(** The object [_.set] creates at [roomStatus.fans[id]] when there is none. *)
Definition noFan : Status.Fan :=
  {| Status.control := noEntry; Status.speed := noEntry;
     Status.minHumidityThreshold := noEntry;
     Status.maxHumidityThreshold := noEntry;
     Status.minRunTime := noEntry; Status.lightTimeout := noEntry;
     Status.trailingTime := noEntry |}.

(** The keys on a path that make [_.set] of lodash leave the object as it
    is. *)
Definition guardedKey (key : string) : bool :=
  bool_decide (key = "__proto__") || bool_decide (key = "constructor")
  || bool_decide (key = "prototype").

(** [_.set(roomStatus, ['fans', id, field], data)], where [store] writes
    [data] to the member [field] of the fan's object. *)
Definition setFan (id : string) (store : Status.Fan -> Status.Fan)
    (roomStatus : Status.Room) : Status.Room :=
  if guardedKey id then roomStatus
  else
    {| Status.fans :=
         <[id := store (default noFan (Status.fans roomStatus !! id))]>
           (Status.fans roomStatus);
       Status.lights := Status.lights roomStatus;
       Status.humidity := Status.humidity roomStatus;
       Status.temperature := Status.temperature roomStatus |}.

Definition withRoomStatus (f : Status.Room -> Status.Room) (this : t) : t :=
  Make (room this) (f (roomStatus this)) (fansTrailing this).

Definition storeMinHumidityThreshold (data : entry Z) (f : Status.Fan) : Status.Fan :=
  {| Status.control := Status.control f; Status.speed := Status.speed f;
     Status.minHumidityThreshold := data;
     Status.maxHumidityThreshold := Status.maxHumidityThreshold f;
     Status.minRunTime := Status.minRunTime f;
     Status.lightTimeout := Status.lightTimeout f;
     Status.trailingTime := Status.trailingTime f |}.

Definition storeMaxHumidityThreshold (data : entry Z) (f : Status.Fan) : Status.Fan :=
  {| Status.control := Status.control f; Status.speed := Status.speed f;
     Status.minHumidityThreshold := Status.minHumidityThreshold f;
     Status.maxHumidityThreshold := data;
     Status.minRunTime := Status.minRunTime f;
     Status.lightTimeout := Status.lightTimeout f;
     Status.trailingTime := Status.trailingTime f |}.

Definition storeMinRunTime (data : entry Z) (f : Status.Fan) : Status.Fan :=
  {| Status.control := Status.control f; Status.speed := Status.speed f;
     Status.minHumidityThreshold := Status.minHumidityThreshold f;
     Status.maxHumidityThreshold := Status.maxHumidityThreshold f;
     Status.minRunTime := data;
     Status.lightTimeout := Status.lightTimeout f;
     Status.trailingTime := Status.trailingTime f |}.

Definition storeLightTimeout (data : entry Z) (f : Status.Fan) : Status.Fan :=
  {| Status.control := Status.control f; Status.speed := Status.speed f;
     Status.minHumidityThreshold := Status.minHumidityThreshold f;
     Status.maxHumidityThreshold := Status.maxHumidityThreshold f;
     Status.minRunTime := Status.minRunTime f;
     Status.lightTimeout := data;
     Status.trailingTime := Status.trailingTime f |}.

Definition storeTrailingTime (data : entry Z) (f : Status.Fan) : Status.Fan :=
  {| Status.control := Status.control f; Status.speed := Status.speed f;
     Status.minHumidityThreshold := Status.minHumidityThreshold f;
     Status.maxHumidityThreshold := Status.maxHumidityThreshold f;
     Status.minRunTime := Status.minRunTime f;
     Status.lightTimeout := Status.lightTimeout f;
     Status.trailingTime := data |}.

Definition storeControl (data : entry string) (f : Status.Fan) : Status.Fan :=
  {| Status.control := data; Status.speed := Status.speed f;
     Status.minHumidityThreshold := Status.minHumidityThreshold f;
     Status.maxHumidityThreshold := Status.maxHumidityThreshold f;
     Status.minRunTime := Status.minRunTime f;
     Status.lightTimeout := Status.lightTimeout f;
     Status.trailingTime := Status.trailingTime f |}.

Definition storeSpeed (data : entry string) (f : Status.Fan) : Status.Fan :=
  {| Status.control := Status.control f; Status.speed := data;
     Status.minHumidityThreshold := Status.minHumidityThreshold f;
     Status.maxHumidityThreshold := Status.maxHumidityThreshold f;
     Status.minRunTime := Status.minRunTime f;
     Status.lightTimeout := Status.lightTimeout f;
     Status.trailingTime := Status.trailingTime f |}.

(** [_.set(roomStatus, ['lights', id], data)]. *)
Definition setLight (id : string) (data : entry lightValue)
    (roomStatus : Status.Room) : Status.Room :=
  if guardedKey id then roomStatus
  else
    {| Status.fans := Status.fans roomStatus;
       Status.lights := <[id := data]> (Status.lights roomStatus);
       Status.humidity := Status.humidity roomStatus;
       Status.temperature := Status.temperature roomStatus |}.

(** [_.set(roomStatus, ['temperature'], data)]. *)
Definition setTemperature (data : entry Z) (roomStatus : Status.Room)
    : Status.Room :=
  {| Status.fans := Status.fans roomStatus;
     Status.lights := Status.lights roomStatus;
     Status.humidity := Status.humidity roomStatus;
     Status.temperature := data |}.

(** [_.set(roomStatus, ['humidity'], data)]. *)
Definition setHumidity (data : entry Z) (roomStatus : Status.Room)
    : Status.Room :=
  {| Status.fans := Status.fans roomStatus;
     Status.lights := Status.lights roomStatus;
     Status.humidity := data;
     Status.temperature := Status.temperature roomStatus |}.

Definition minHumidityThreshold (id : string) (data : entry Z) (now : Z) (this : t) :=
  updateFans now (withRoomStatus (setFan id (storeMinHumidityThreshold data)) this).

Definition maxHumidityThreshold (id : string) (data : entry Z) (now : Z) (this : t) :=
  updateFans now (withRoomStatus (setFan id (storeMaxHumidityThreshold data)) this).

Definition minRunTime (id : string) (data : entry Z) (now : Z) (this : t) :=
  updateFans now (withRoomStatus (setFan id (storeMinRunTime data)) this).

Definition lightTimeout (id : string) (data : entry Z) (now : Z) (this : t) :=
  updateFans now (withRoomStatus (setFan id (storeLightTimeout data)) this).

Definition trailingTime (id : string) (data : entry Z) (now : Z) (this : t) :=
  updateFans now (withRoomStatus (setFan id (storeTrailingTime data)) this).

Definition control (id : string) (data : entry string) (now : Z) (this : t) :=
  updateFans now (withRoomStatus (setFan id (storeControl data)) this).

Definition speed (id : string) (data : entry string) (now : Z) (this : t) :=
  updateFans now (withRoomStatus (setFan id (storeSpeed data)) this).

Definition lights (id : string) (data : entry lightValue) (now : Z) (this : t) :=
  updateFans now (withRoomStatus (setLight id data) this).

Definition temperature (data : entry Z) (now : Z) (this : t) :=
  updateFans now (withRoomStatus (setTemperature data) this).

Definition humidity (data : entry Z) (now : Z) (this : t) :=
  updateFans now (withRoomStatus (setHumidity data) this).

End Pass.

(** ** The constructor (lines 26-101), as far as it builds the state *)

(** [{control: {value: 'manual'}, speed: {value: 'off'}}] *)
Definition initialFan : Status.Fan :=
  {| Status.control := Entry (Some "manual") None;
     Status.speed := Entry (Some "off") None;
     Status.minHumidityThreshold := noEntry;
     Status.maxHumidityThreshold := noEntry;
     Status.minRunTime := noEntry; Status.lightTimeout := noEntry;
     Status.trailingTime := noEntry |}.

(** [{value: {value: 'off'}}] *)
Definition initialLight : entry lightValue := Entry (Some (LNested "off")) None.

Definition constructor (room : Cfg.Room) : t :=
  Make room
    {| Status.fans :=
         fold_left (fun m fan => <[Cfg.id fan := initialFan]> m) (Cfg.fans room) ∅;
       Status.lights :=
         fold_left (fun m light => <[Cfg.lightId light := initialLight]> m)
           (Cfg.lights room) ∅;
       Status.humidity := noEntry;
       Status.temperature := noEntry |}
    ∅.

(** ** Concrete rooms used in the examples *)

(** The fan of the scenario of the specification. *)
Definition bathFan : Cfg.Fan :=
  {| Cfg.id := "fan"; Cfg.label := "Fan";
     Cfg.minHumidityThreshold := 60; Cfg.maxHumidityThreshold := 80;
     Cfg.minRunTime := 120; Cfg.lightTimeout := 600; Cfg.trailingTime := 300;
     Cfg.triggerLights := ["light"] |}.

Definition bath : Cfg.Room :=
  {| Cfg.roomId := "bath"; Cfg.roomLabel := "Bath";
     Cfg.fans := [bathFan];
     Cfg.lights := [ {| Cfg.lightId := "light"; Cfg.lightLabel := "Light" |} ] |}.

(** A fan control with the three speed methods. *)
Definition threeSpeeds (name : string) : bool :=
  bool_decide (name = "off") || bool_decide (name = "min")
  || bool_decide (name = "max").

(** The room after [control('fan', {value: 'auto'})] and
    [humidity({value: h})], with the speed record [speed] and the given
    [fansTrailing]. *)
Definition bathAuto (h : Z) (speed : entry string) (tr : gmap string bool) : t :=
  Make bath
    (setHumidity (Entry (Some h) None)
       (setFan "fan" (storeSpeed speed)
          (setFan "fan" (storeControl (Entry (Some "auto") None))
             (roomStatus (constructor bath)))))
    tr.

(** ** The cascade of the specification

    Section 4.2, step 4, word for word: the candidate speed of a fan whose
    humidity reading is [h]. *)
Definition cascadeSpec (h : Z) (speed : string)
    (minHumidityThreshold maxHumidityThreshold : Z) : string :=
  if decide (h > maxHumidityThreshold) then "max"
  else if decide (speed = "max" /\ h > maxHumidityThreshold - 10) then "max"
  else if decide (h > minHumidityThreshold) then "min"
  else if decide (speed = "min" /\ h > minHumidityThreshold - 5) then "min"
  else "off".

(** What the body reads of [roomStatus] for one fan: the fan's own object,
    the lights and the humidity. *)
Definition agreeOn (fan : Cfg.Fan) (rs rs' : Status.Room) : Prop :=
  Status.fans rs !! Cfg.id fan = Status.fans rs' !! Cfg.id fan
  /\ Status.lights rs = Status.lights rs'
  /\ Status.humidity rs = Status.humidity rs'.

(** The ids of the configured fans, in the order of [room.fans]. *)
Definition fanIds (room : Cfg.Room) : list string := map Cfg.id (Cfg.fans room).

(** The commit step as section 4.2, step 6 words it for a fan whose
    [newSpeed] differs from the recorded speed: after the pass,
    [roomStatus.fans[id].speed] is [{value: newSpeed, since: now}]. *)
Definition speedRecordedSpec (fanMethod : string -> bool) (now : Z) (this : t)
    (fan : Cfg.Fan) : Prop :=
  let rs := roomStatus this in
  let newSpeed := newSpeedOf rs fan (trailingStep now rs fan (fansTrailing this)) in
  automatic now rs fan = true ->
  speedOf rs fan <> newSpeed ->
  Status.speed <$>
    (Status.fans (roomStatus (updateFans fanMethod now this).1.1) !! Cfg.id fan)
  = Some (Entry (Some newSpeed) (Some now)).

(** Idempotence as section 8 words it: a second pass right after the first,
    at the same clock reading, publishes nothing. *)
Definition secondPassSilentSpec (fanMethod : string -> bool) (now : Z) (this : t)
    : Prop :=
  let first := updateFans fanMethod now this in
  existsb isPublish (updateFans fanMethod now first.1.1).1.2 = false.

(** The cascade as claimed for every reading that is present: the candidate
    of the code is the cascade of the specification. *)
Definition cascadeForPresentSpec (now : Z) (rs : Status.Room) (fan : Cfg.Fan)
    : Prop :=
  automatic now rs fan = true ->
  forall h, humidityOf rs = Some h ->
    humiditySpeed (humidityOf rs) (speedOf rs fan)
      (minHumidityThresholdOf rs fan) (maxHumidityThresholdOf rs fan)
    = cascadeSpec h (speedOf rs fan) (minHumidityThresholdOf rs fan)
        (maxHumidityThresholdOf rs fan).

(** The guard as claimed for every [minRunTime]: a fan in automatic mode
    that runs and whose speed was set less than [minRunTime] seconds ago is
    passed over. *)
Definition guardForEveryRunTimeSpec (fanMethod : string -> bool) (now : Z)
    (room : Cfg.Room) (rs : Status.Room) (tr : gmap string bool) (fan : Cfg.Fan)
    : Prop :=
  controlOf rs fan = "auto" ->
  speedOf rs fan <> "off" ->
  (exists d, elapsedOf now rs fan = Some d /\ d < 1000 * minRunTimeOf rs fan) ->
  updateFan fanMethod now room rs tr fan = (tr, [], Next).

(** A reading of [0] for a fan at ['min'] since time 0 with a minimum
    threshold of [3]. *)
Definition zeroReading : Status.Room :=
  setFan "fan" (storeMinHumidityThreshold (Entry (Some 3) None))
    (roomStatus (bathAuto 0 (Entry (Some "min") (Some 0)) ∅)).

(** A fan at ['max'] since time 0 with a minimum run time of [1e21]
    seconds. *)
Definition longRunTime : Status.Room :=
  setFan "fan" (storeMinRunTime (Entry (Some exponentForm) None))
    (roomStatus (bathAuto 50 (Entry (Some "max") (Some 0)) ∅)).

(** The bath with the trigger light as a light message left it. *)
Definition bathLight (light : entry lightValue) (this : t) : t :=
  withRoomStatus (setLight "light" light) this.

(** The trigger light on since time 1000, the fan off and not trailing. *)
Definition lightOn : t :=
  bathLight (Entry (Some (LText "on")) (Some 1000))
    (bathAuto 50 (Entry (Some "off") None) ∅).

(** The trigger light off since time 1000, the fan off and trailing. *)
Definition lightOff : t :=
  bathLight (Entry (Some (LText "off")) (Some 1000))
    (bathAuto 50 (Entry (Some "off") None) {["fan" := true]}).

(** A room with two fans, the first recorded with a speed that is not a
    method of the fan control. *)
Definition hallFan : Cfg.Fan :=
  {| Cfg.id := "hall"; Cfg.label := "Hall";
     Cfg.minHumidityThreshold := 60; Cfg.maxHumidityThreshold := 80;
     Cfg.minRunTime := 120; Cfg.lightTimeout := 600; Cfg.trailingTime := 300;
     Cfg.triggerLights := [] |}.

Definition twoFans : Cfg.Room :=
  {| Cfg.roomId := "bath"; Cfg.roomLabel := "Bath";
     Cfg.fans := [bathFan; hallFan]; Cfg.lights := [] |}.

Definition turbo : t :=
  withRoomStatus (setFan "fan" (storeSpeed (Entry (Some "turbo") None)))
    (constructor twoFans).

(** ** Vocabulary for the properties of the pass *)

(** [_.get(roomStatus, ['lights', lightId, 'value']) === 'on'] (line 168). *)
Definition isOn (roomStatus : Status.Room) (lightId : string) : bool :=
  bool_decide (Status.lights roomStatus !! lightId ≫= value = Some (LText "on")).

(** [_.get(roomStatus, ['lights', lightId, 'since'])] (lines 169 and 177). *)
Definition lightSince (roomStatus : Status.Room) (lightId : string) : option Z :=
  Status.lights roomStatus !! lightId ≫= since.

(** The order of the three speeds: off, min, max. *)
Definition speedRank (speed : string) : Z :=
  if bool_decide (speed = "max") then 2
  else if bool_decide (speed = "min") then 1
  else 0.

(** The fan an effect is about, and the speed it carries. *)
Definition effectFan (e : effect) : string :=
  match e with Publish _ fanId _ => fanId | Actuate fanId _ => fanId end.

Definition effectSpeed (e : effect) : string :=
  match e with Publish _ _ newSpeed => newSpeed | Actuate _ method => method end.

(** The fan is passed over by the pass: automatic control and held by the
    minimum run time (lines 130-134). *)
Definition held (now : Z) (roomStatus : Status.Room) (fan : Cfg.Fan) : bool :=
  negb (bool_decide (controlOf roomStatus fan = "manual"))
  && keepRunning now roomStatus fan.

(** The eight constants of lines 112-121, as one tuple. *)
Definition resolved (now : Z) (roomStatus : Status.Room) (fan : Cfg.Fan)
    : string * string * Z * Z * Z * Z * Z * Z :=
  (controlOf roomStatus fan, speedOf roomStatus fan,
   speedSinceOf now roomStatus fan,
   minHumidityThresholdOf roomStatus fan, maxHumidityThresholdOf roomStatus fan,
   minRunTimeOf roomStatus fan, lightTimeoutOf roomStatus fan,
   trailingTimeOf roomStatus fan).

(** * Properties *)

Section Properties.

Variable fanMethod : string -> bool.

Ltac flip_bools :=
  repeat match goal with
  | H : _ && _ = true |- _ => apply andb_prop in H; destruct H
  | H : negb _ = true |- _ => apply negb_true_iff in H
  | H : bool_decide _ = true |- _ => apply bool_decide_eq_true in H
  | H : bool_decide _ = false |- _ => apply bool_decide_eq_false in H
  | H : (_ <? _) = true |- _ => apply Z.ltb_lt in H
  | H : (_ <? _) = false |- _ => apply Z.ltb_ge in H
  | H : (_ =? _) = true |- _ => apply Z.eqb_eq in H
  | H : (_ =? _) = false |- _ => apply Z.eqb_neq in H
  end.

(** The body, once it reaches the automatic handling. *)
Lemma updateFan_automatic now room rs tr fan :
  automatic now rs fan = true ->
  updateFan fanMethod now room rs tr fan =
    if durationRaises now rs fan tr then (tr, [], Raised)
    else
      (trailingStep now rs fan tr,
       ((if bool_decide
              (speedOf rs fan = newSpeedOf rs fan (trailingStep now rs fan tr))
         then []
         else [Publish (Cfg.roomId room) (Cfg.id fan)
                 (newSpeedOf rs fan (trailingStep now rs fan tr))])
        ++ [Actuate (Cfg.id fan) (newSpeedOf rs fan (trailingStep now rs fan tr))])%list,
       call fanMethod (newSpeedOf rs fan (trailingStep now rs fan tr))).
Proof.
  unfold automatic, updateFan. intros H. flip_bools.
  rewrite (bool_decide_eq_false_2 _ H), H0. reflexivity.
Qed.

(** What the loop over the trigger lights holds as a timestamp is the
    [since] of one of the lights. *)
Lemma fold_scan_origin rs (l : list string) :
  forall acc,
    let r := fold_left (scanLight rs) l acc in
    (forall m, minLightOnSince r = Some m ->
       minLightOnSince acc = Some m
       \/ exists x, x ∈ l /\ lightSince rs x = Some m)
    /\ (forall m, maxLightOffSince r = Some m ->
          maxLightOffSince acc = Some m
          \/ exists x, x ∈ l /\ lightSince rs x = Some m).
Proof.
  induction l as [|x l IH]; intros acc; simpl; [auto|].
  destruct (IH (scanLight rs acc x)) as (H1 & H2).
  assert (Hx : (forall m, minLightOnSince (scanLight rs acc x) = Some m ->
                  minLightOnSince acc = Some m \/ lightSince rs x = Some m)
               /\ (forall m, maxLightOffSince (scanLight rs acc x) = Some m ->
                     maxLightOffSince acc = Some m \/ lightSince rs x = Some m)).
  { unfold scanLight, lightSince.
    destruct (bool_decide _); simpl; split; intros m; auto;
      destruct (_ || _); auto. }
  destruct Hx as (Hx1 & Hx2). split; intros m Hm.
  - destruct (H1 m Hm) as [H|(y & Hy & Hs)].
    + destruct (Hx1 m H) as [H'|H']; [left; exact H'|].
      right. exists x. split; [left|exact H'].
    + right. exists y. split; [right; exact Hy|exact Hs].
  - destruct (H2 m Hm) as [H|(y & Hy & Hs)].
    + destruct (Hx2 m H) as [H'|H']; [left; exact H'|].
      right. exists x. split; [left|exact H'].
    + right. exists y. split; [right; exact Hy|exact Hs].
Qed.

(** With every [since] of the trigger lights a valid date, the debug lines
    do not raise. *)
Lemma durationRaises_valid now rs fan tr :
  (forall x u, x ∈ Cfg.triggerLights fan -> lightSince rs x = Some u ->
     validDate u = true) ->
  durationRaises now rs fan tr = false.
Proof.
  intros Hv. unfold durationRaises, scanLights.
  destruct (fold_scan_origin rs (Cfg.triggerLights fan) (LightScan None None false))
    as (H1 & H2).
  simpl in H1, H2.
  set (sc := fold_left (scanLight rs) (Cfg.triggerLights fan)
               (LightScan None None false)) in *.
  assert (Hmin : truthy (minLightOnSince sc)
                 && negb (bool_decide
                            (is_Some (diff now (default 0 (minLightOnSince sc)))))
                 = false).
  { destruct (minLightOnSince sc) as [m|] eqn:E; [|reflexivity].
    destruct (H1 m eq_refl) as [H|(x & Hx & Hs)]; [discriminate|].
    simpl. unfold diff. rewrite (Hv x m Hx Hs).
    rewrite bool_decide_eq_true_2 by eauto. apply andb_false_r. }
  assert (Hmax : truthy (maxLightOffSince sc)
                 && negb (bool_decide
                            (is_Some (diff now (default 0 (maxLightOffSince sc)))))
                 = false).
  { destruct (maxLightOffSince sc) as [m|] eqn:E; [|reflexivity].
    destruct (H2 m eq_refl) as [H|(x & Hx & Hs)]; [discriminate|].
    simpl. unfold diff. rewrite (Hv x m Hx Hs).
    rewrite bool_decide_eq_true_2 by eauto. apply andb_false_r. }
  rewrite <- !andb_assoc. rewrite Hmin, Hmax.
  rewrite !andb_false_r. reflexivity.
Qed.

Lemma humiditySpeed_cascade h speed minT maxT :
  truthy (Some h) = true ->
  humiditySpeed (Some h) speed minT maxT = cascadeSpec h speed minT maxT.
Proof.
  intros Hh. unfold humiditySpeed, cascadeSpec. rewrite Hh. simpl.
  repeat first
    [ progress flip_bools
    | match goal with
      | |- context [decide ?P] => destruct (decide P)
      | |- context [?a <? ?b] => destruct (a <? b) eqn:?
      | |- context [bool_decide ?P] => destruct (bool_decide P) eqn:?
      end ];
    simpl; try reflexivity; try lia; try tauto; exfalso; intuition lia.
Qed.

(** The humidity block gives the speed it is given back: with the recorded
    speed set to its result, it chooses the same speed again. *)
Lemma humiditySpeed_idempotent humidity speed minT maxT :
  humiditySpeed humidity (humiditySpeed humidity speed minT maxT) minT maxT
  = humiditySpeed humidity speed minT maxT.
Proof.
  unfold humiditySpeed. destruct (truthy humidity); [|reflexivity]. simpl.
  destruct (maxT <? default 0 humidity); [reflexivity|].
  destruct (bool_decide (speed = "max") && (maxT - 10 <? default 0 humidity)) eqn:E1.
  { rewrite bool_decide_eq_true_2 by reflexivity.
    flip_bools. apply Z.ltb_lt in H0. rewrite H0. reflexivity. }
  destruct (minT <? default 0 humidity); [reflexivity|].
  destruct (bool_decide (speed = "min") && (minT - 5 <? default 0 humidity)) eqn:E2.
  { rewrite (bool_decide_eq_true_2 ("min" = "min")) by reflexivity.
    flip_bools. apply Z.ltb_lt in H0. rewrite H0. reflexivity. }
  reflexivity.
Qed.

(** No pass writes [roomStatus]. *)
Lemma updateFans_roomStatus now this :
  roomStatus (updateFans fanMethod now this).1.1 = roomStatus this.
Proof.
  unfold updateFans.
  destruct (updateFansLoop _ _ _ _ _ _) as [[tr' e] o]. reflexivity.
Qed.

Lemma updateFans_room now this :
  room (updateFans fanMethod now this).1.1 = room this.
Proof.
  unfold updateFans.
  destruct (updateFansLoop _ _ _ _ _ _) as [[tr' e] o]. reflexivity.
Qed.

(** Every effect of a pass is an effect of the body, run for a configured
    fan. *)
Lemma updateFansLoop_effect_origin now room rs (fans : list Cfg.Fan) (e : effect) :
  forall tr,
    e ∈ (updateFansLoop fanMethod now room rs tr fans).1.2 ->
    exists fan tr0,
      fan ∈ fans /\ e ∈ (updateFan fanMethod now room rs tr0 fan).1.2.
Proof.
  induction fans as [|fan rest IH]; intros tr; simpl.
  - intros H. apply elem_of_nil in H. contradiction.
  - destruct (updateFan fanMethod now room rs tr fan) as [[tr1 e1] o1] eqn:E.
    assert (Hhere : e ∈ e1 -> exists fan0 tr0,
              fan0 ∈ fan :: rest
              /\ e ∈ (updateFan fanMethod now room rs tr0 fan0).1.2).
    { intros H. exists fan, tr. rewrite E. split; [left|exact H]. }
    destruct o1; simpl; [|exact Hhere].
    specialize (IH tr1).
    destruct (updateFansLoop fanMethod now room rs tr1 rest) as [[tr2 e2] o2].
    simpl in *. intros H. apply elem_of_app in H. destruct H as [H|H]; [auto|].
    destruct (IH H) as (fan0 & tr0 & Hin & He).
    exists fan0, tr0. split; [right; exact Hin|exact He].
Qed.

(** C1 (as amended).  A fan evaluated in automatic mode past the
    minimum-run-time guard, with a humidity reading [h] other than [0]: the
    candidate [newSpeed] computed from the humidity is the cascade of the
    specification; and unless a debug line raises (line 188 or 200, on a
    duration that is [NaN]) it is the speed the body commits, published when
    it differs and sent to the fan control, unless trailing replaces it. *)
Theorem humidity_cascade now room rs tr fan h :
  automatic now rs fan = true ->
  humidityOf rs = Some h ->
  h <> 0 ->
  let speed := speedOf rs fan in
  let candidate :=
    cascadeSpec h speed (minHumidityThresholdOf rs fan)
      (maxHumidityThresholdOf rs fan) in
  humiditySpeed (humidityOf rs) speed (minHumidityThresholdOf rs fan)
    (maxHumidityThresholdOf rs fan) = candidate
  /\ let tr' := trailingStep now rs fan tr in
     let newSpeed := if trailing tr' (Cfg.id fan) then "min" else candidate in
     updateFan fanMethod now room rs tr fan =
       if durationRaises now rs fan tr then (tr, [], Raised)
       else
         (tr',
          ((if bool_decide (speed = newSpeed) then []
            else [Publish (Cfg.roomId room) (Cfg.id fan) newSpeed])
           ++ [Actuate (Cfg.id fan) newSpeed])%list,
          call fanMethod newSpeed).
Proof.
  intros Hauto Hh Hnz speed candidate.
  assert (Hc : humiditySpeed (humidityOf rs) speed
                 (minHumidityThresholdOf rs fan)
                 (maxHumidityThresholdOf rs fan) = candidate).
  { rewrite Hh. apply humiditySpeed_cascade. simpl.
    apply negb_true_iff, Z.eqb_neq, Hnz. }
  split; [exact Hc|]. intros tr' newSpeed. subst tr' newSpeed.
  rewrite (updateFan_automatic _ room _ tr _ Hauto).
  unfold newSpeedOf. fold speed. rewrite Hc. reflexivity.
Qed.

(** C3 (as amended).  A fan in automatic mode that runs (its speed is not
    ['off']), whose [minRunTime] is below [1e21] and whose speed was set at a
    valid date less than [minRunTime] seconds ago, is skipped: the body
    publishes nothing, calls nothing and leaves [fansTrailing] as it was,
    whatever the humidity and the lights are; and no pass writes
    [roomStatus], so the recorded speed stays. *)
Theorem min_run_time_guard now room rs tr fan d :
  controlOf rs fan = "auto" ->
  speedOf rs fan <> "off" ->
  elapsedOf now rs fan = Some d ->
  d < 1000 * minRunTimeOf rs fan ->
  minRunTimeOf rs fan < exponentForm ->
  updateFan fanMethod now room rs tr fan = (tr, [], Next)
  /\ forall this, roomStatus (updateFans fanMethod now this).1.1 = roomStatus this.
Proof.
  intros Hc Hs He Ht Hb. split.
  - unfold updateFan. rewrite Hc.
    rewrite bool_decide_eq_false_2 by discriminate.
    assert (Hk : keepRunning now rs fan = true).
    { unfold keepRunning, ms. rewrite He.
      rewrite (bool_decide_eq_false_2 _ Hs). simpl.
      apply Z.ltb_lt.
      destruct (minRunTimeOf rs fan <? 0) eqn:E1;
        destruct (exponentForm <=? minRunTimeOf rs fan) eqn:E2; simpl;
        flip_bools; try apply Z.leb_le in E2; try apply Z.leb_gt in E2; lia. }
    rewrite Hk. reflexivity.
  - intros this. apply updateFans_roomStatus.
Qed.

(** C4.  A fan in manual mode: the body calls the fan control with the
    recorded speed and does nothing else (no publish, [fansTrailing]
    untouched, [roomStatus] never written by a pass); the call is the same
    for every humidity, temperature, light state and clock reading. *)
Theorem manual_mode now room rs tr fan :
  controlOf rs fan = "manual" ->
  updateFan fanMethod now room rs tr fan =
    (tr, [Actuate (Cfg.id fan) (speedOf rs fan)], call fanMethod (speedOf rs fan))
  /\ (forall now' rs',
        Status.fans rs' = Status.fans rs ->
        updateFan fanMethod now' room rs' tr fan =
        updateFan fanMethod now room rs tr fan)
  /\ forall this, roomStatus (updateFans fanMethod now this).1.1 = roomStatus this.
Proof.
  intros Hc.
  assert (Hm : forall now' rs', Status.fans rs' = Status.fans rs ->
            updateFan fanMethod now' room rs' tr fan =
            (tr, [Actuate (Cfg.id fan) (speedOf rs fan)],
             call fanMethod (speedOf rs fan))).
  { intros now' rs' Hf. unfold updateFan.
    assert (Hc' : controlOf rs' fan = "manual").
    { rewrite <- Hc. unfold controlOf, getFanValue. rewrite Hf. reflexivity. }
    assert (Hs' : speedOf rs' fan = speedOf rs fan).
    { unfold speedOf, getFanValue. rewrite Hf. reflexivity. }
    rewrite Hc', Hs'. rewrite bool_decide_eq_true_2 by reflexivity.
    reflexivity. }
  split; [apply Hm; reflexivity|]. split.
  - intros now' rs' Hf. rewrite (Hm now' rs' Hf), (Hm now rs eq_refl).
    reflexivity.
  - intros this. apply updateFans_roomStatus.
Qed.

(** Trigger lights that are not on and carry no [since]: the scan ends as it
    started. *)
Lemma scanLights_no_since rs (triggerLights : list string) :
  (forall lightId, lightId ∈ triggerLights ->
     Status.lights rs !! lightId ≫= value <> Some (LText "on")
     /\ Status.lights rs !! lightId ≫= since = None) ->
  scanLights rs triggerLights = LightScan None None false.
Proof.
  unfold scanLights. induction triggerLights as [|x l IH]; intros H; [reflexivity|].
  simpl. destruct (H x) as [Hv Hs]; [left|].
  assert (Hx : scanLight rs (LightScan None None false) x = LightScan None None false).
  { unfold scanLight. rewrite (bool_decide_eq_false_2 _ Hv), Hs. reflexivity. }
  rewrite Hx. apply IH. intros y Hy. apply H. right. exact Hy.
Qed.

(** C5 (as amended).  A fan evaluated in automatic mode past the guard.
    Unless a debug line raises (line 188 or 200, on a duration that is
    [NaN], which ends the pass before the commit), the body publishes
    [newSpeed] exactly when it differs from the recorded speed, and calls the
    fan control with [newSpeed] in either case; when a debug line raises the
    body has no effect.  The pass does not write [roomStatus] (the record
    [speed], its [since] included, changes only through the mutator
    [speed]). *)
Theorem commit_publish_and_actuate now this fan :
  automatic now (roomStatus this) fan = true ->
  let rs := roomStatus this in
  let newSpeed := newSpeedOf rs fan (trailingStep now rs fan (fansTrailing this)) in
  let raises := durationRaises now rs fan (fansTrailing this) in
  let effects :=
    (updateFan fanMethod now (room this) rs (fansTrailing this) fan).1.2 in
  effects =
    (if raises then []
     else if decide (speedOf rs fan = newSpeed)
     then [Actuate (Cfg.id fan) newSpeed]
     else [Publish (Cfg.roomId (room this)) (Cfg.id fan) newSpeed;
           Actuate (Cfg.id fan) newSpeed])
  /\ (forall e, e ∈ effects -> isPublish e = true ->
        e = Publish (Cfg.roomId (room this)) (Cfg.id fan) newSpeed)
  /\ (existsb isPublish effects = true
      <-> raises = false /\ speedOf rs fan <> newSpeed)
  /\ (raises = false -> Actuate (Cfg.id fan) newSpeed ∈ effects)
  /\ roomStatus (updateFans fanMethod now this).1.1 = roomStatus this.
Proof.
  intros Hauto rs newSpeed raises effects. subst effects raises newSpeed rs.
  rewrite (updateFan_automatic _ (room this) _ (fansTrailing this) _ Hauto).
  set (rs := roomStatus this).
  set (newSpeed := newSpeedOf rs fan (trailingStep now rs fan (fansTrailing this))).
  destruct (durationRaises now rs fan (fansTrailing this)); simpl.
  { split; [reflexivity|]. split.
    { intros e He. apply elem_of_nil in He. contradiction. }
    split.
    { split; [discriminate|]. intros (Hr & _). discriminate Hr. }
    split; [discriminate|]. apply updateFans_roomStatus. }
  destruct (decide (speedOf rs fan = newSpeed)) as [E|E].
  - rewrite (bool_decide_eq_true_2 _ E). simpl.
    repeat split.
    + intros e He Hp. apply list_elem_of_singleton in He. subst e. discriminate.
    + discriminate.
    + intros [_ Hne]. contradiction.
    + intros _. left.
    + apply updateFans_roomStatus.
  - rewrite (bool_decide_eq_false_2 _ E). simpl.
    repeat split.
    + intros e He Hp. apply elem_of_cons in He. destruct He as [->|He]; [reflexivity|].
      apply list_elem_of_singleton in He. subst e. discriminate.
    + exact E.
    + intros _. right. left.
    + apply updateFans_roomStatus.
Qed.

(** C9.  A humidity reading of [0] is treated as no reading: for a fan
    evaluated in automatic mode past the guard the humidity block is skipped,
    the candidate is ['off'], the body does what it does when the reading is
    absent, and the speed to commit is ['min'] when the fan trails and
    ['off'] otherwise, whatever the thresholds are; the body commits it
    unless a debug line raises (line 188 or 200, on a duration that is
    [NaN]). *)
Theorem zero_humidity_is_absent now room rs tr fan :
  automatic now rs fan = true ->
  humidityOf rs = Some 0 ->
  humiditySpeed (humidityOf rs) (speedOf rs fan) (minHumidityThresholdOf rs fan)
    (maxHumidityThresholdOf rs fan) = "off"
  /\ (forall since',
        updateFan fanMethod now room rs tr fan =
        updateFan fanMethod now room (setHumidity (Entry None since') rs) tr fan)
  /\ (forall tr',
        newSpeedOf rs fan tr' = if trailing tr' (Cfg.id fan) then "min" else "off")
  /\ let tr' := trailingStep now rs fan tr in
     let newSpeed := if trailing tr' (Cfg.id fan) then "min" else "off" in
     updateFan fanMethod now room rs tr fan =
       if durationRaises now rs fan tr then (tr, [], Raised)
       else
         (tr',
          ((if bool_decide (speedOf rs fan = newSpeed) then []
            else [Publish (Cfg.roomId room) (Cfg.id fan) newSpeed])
           ++ [Actuate (Cfg.id fan) newSpeed])%list,
          call fanMethod newSpeed).
Proof.
  intros Hauto Hh.
  assert (Hoff : humiditySpeed (humidityOf rs) (speedOf rs fan)
            (minHumidityThresholdOf rs fan) (maxHumidityThresholdOf rs fan) = "off").
  { rewrite Hh. reflexivity. }
  split; [exact Hoff|]. split; [|split].
  - intros since'.
    assert (Hauto' : automatic now (setHumidity (Entry None since') rs) fan = true)
      by exact Hauto.
    rewrite (updateFan_automatic _ room _ tr _ Hauto).
    rewrite (updateFan_automatic _ room _ tr _ Hauto').
    change (durationRaises now (setHumidity (Entry None since') rs) fan tr)
      with (durationRaises now rs fan tr).
    change (trailingStep now (setHumidity (Entry None since') rs) fan tr)
      with (trailingStep now rs fan tr).
    assert (Hn : newSpeedOf (setHumidity (Entry None since') rs) fan
                   (trailingStep now rs fan tr)
                 = newSpeedOf rs fan (trailingStep now rs fan tr)).
    { unfold newSpeedOf. rewrite Hoff. reflexivity. }
    rewrite Hn. reflexivity.
  - intros tr'. unfold newSpeedOf. rewrite Hoff. reflexivity.
  - intros tr' newSpeed. subst tr' newSpeed.
    rewrite (updateFan_automatic _ room _ tr _ Hauto).
    unfold newSpeedOf. rewrite Hoff. reflexivity.
Qed.

(** C10.  A fan that trails while no trigger light is on and no trigger
    light's entry carries a [since] (as the entries the constructor stores):
    the body leaves [fansTrailing] as it is, so the fan still trails, and when
    the body reaches the automatic handling the speed it commits is
    ['min']. *)
Theorem trailing_without_off_since now room rs tr fan :
  trailing tr (Cfg.id fan) = true ->
  (forall lightId, lightId ∈ Cfg.triggerLights fan ->
     Status.lights rs !! lightId ≫= value <> Some (LText "on")
     /\ Status.lights rs !! lightId ≫= since = None) ->
  (updateFan fanMethod now room rs tr fan).1.1 = tr
  /\ trailing (updateFan fanMethod now room rs tr fan).1.1 (Cfg.id fan) = true
  /\ (automatic now rs fan = true ->
      updateFan fanMethod now room rs tr fan =
        (tr,
         ((if bool_decide (speedOf rs fan = "min") then []
           else [Publish (Cfg.roomId room) (Cfg.id fan) "min"])
          ++ [Actuate (Cfg.id fan) "min"])%list,
         call fanMethod "min")).
Proof.
  intros Htr Hl.
  assert (Hstep : trailingStep now rs fan tr = tr).
  { unfold trailingStep. rewrite (scanLights_no_since _ _ Hl).
    unfold lightsOnStep, lightsOffStep. simpl.
    rewrite andb_false_r. reflexivity. }
  assert (Hraise : durationRaises now rs fan tr = false).
  { unfold durationRaises. rewrite (scanLights_no_since _ _ Hl). simpl.
    rewrite !andb_false_r. reflexivity. }
  assert (H1 : (updateFan fanMethod now room rs tr fan).1.1 = tr).
  { unfold updateFan.
    destruct (bool_decide (controlOf rs fan = "manual")); [reflexivity|].
    destruct (keepRunning now rs fan); [reflexivity|].
    rewrite Hraise. simpl. exact Hstep. }
  split; [exact H1|]. split; [rewrite H1; exact Htr|].
  intros Hauto. rewrite (updateFan_automatic _ room _ tr _ Hauto).
  rewrite Hraise, Hstep. unfold newSpeedOf. rewrite Htr. reflexivity.
Qed.

(** ** What a pass reads *)

Lemma scanLights_lights rs rs' (triggerLights : list string) :
  Status.lights rs = Status.lights rs' ->
  scanLights rs triggerLights = scanLights rs' triggerLights.
Proof.
  intros H. unfold scanLights. generalize (LightScan None None false).
  induction triggerLights as [|x l IH]; intros acc; [reflexivity|].
  simpl. rewrite <- IH. f_equal. unfold scanLight. rewrite H. reflexivity.
Qed.

Lemma updateFan_agree now room rs rs' tr fan :
  agreeOn fan rs rs' ->
  updateFan fanMethod now room rs tr fan = updateFan fanMethod now room rs' tr fan.
Proof.
  intros (Hf & Hl & Hh).
  unfold updateFan, keepRunning, elapsedOf, durationRaises, newSpeedOf,
    trailingStep, humidityOf,
    controlOf, speedOf, speedSinceOf, minRunTimeOf, lightTimeoutOf,
    trailingTimeOf, minHumidityThresholdOf, maxHumidityThresholdOf,
    getFanValue, getSpeedSince.
  rewrite Hf, Hh, (scanLights_lights rs rs' _ Hl). reflexivity.
Qed.

Lemma updateFansLoop_agree now room rs rs' (fans : list Cfg.Fan) :
  (forall fan, fan ∈ fans -> agreeOn fan rs rs') ->
  forall tr,
    updateFansLoop fanMethod now room rs tr fans =
    updateFansLoop fanMethod now room rs' tr fans.
Proof.
  induction fans as [|fan rest IH]; intros H tr; [reflexivity|].
  simpl. rewrite (updateFan_agree now room rs rs' tr fan) by (apply H; left).
  destruct (updateFan fanMethod now room rs' tr fan) as [[tr1 e1] [|]];
    [|reflexivity].
  rewrite IH; [reflexivity|]. intros f Hf. apply H. right. exact Hf.
Qed.

(** A pass over a status changed where no configured fan reads it. *)
Lemma updateFans_agree now this (f : Status.Room -> Status.Room) :
  (forall fan, fan ∈ Cfg.fans (room this) ->
     agreeOn fan (f (roomStatus this)) (roomStatus this)) ->
  updateFans fanMethod now (withRoomStatus f this) =
    (withRoomStatus f (updateFans fanMethod now this).1.1,
     (updateFans fanMethod now this).1.2,
     (updateFans fanMethod now this).2).
Proof.
  intros H. unfold updateFans, withRoomStatus. simpl.
  rewrite (updateFansLoop_agree now (room this) _ _ _ H).
  destruct (updateFansLoop _ _ _ _ _ _) as [[tr' e] o]. reflexivity.
Qed.

Lemma agreeOn_setFan id store rs fan :
  Cfg.id fan <> id -> agreeOn fan (setFan id store rs) rs.
Proof.
  intros Hne. unfold agreeOn, setFan.
  destruct (guardedKey id); [auto|]. simpl.
  rewrite lookup_insert_ne by congruence. auto.
Qed.

Lemma agreeOn_setTemperature data rs fan :
  agreeOn fan (setTemperature data rs) rs.
Proof. unfold agreeOn, setTemperature. simpl. auto. Qed.

(** A fan id that is not configured: storing under it changes no pass. *)
Lemma updateFans_unknown_id now this id store :
  id ∉ fanIds (room this) ->
  updateFans fanMethod now (withRoomStatus (setFan id store) this) =
    (withRoomStatus (setFan id store) (updateFans fanMethod now this).1.1,
     (updateFans fanMethod now this).1.2,
     (updateFans fanMethod now this).2).
Proof.
  intros Hid. apply updateFans_agree. intros fan Hfan.
  apply agreeOn_setFan. intros E. apply Hid. unfold fanIds.
  apply list_elem_of_fmap. exists fan. auto.
Qed.

(** C7.  A fan mutator called with an id that is not in [room.fans]: the
    call is defined (the model's mutators are total; nothing is raised that
    the pass would not raise without the call), the pass it triggers has the
    effects, the outcome and the [fansTrailing] of a pass over the unchanged
    status, the objects of the configured fans are untouched, and the same
    holds for every later pass. *)
Theorem unknown_fan_id_ignored now this id :
  id ∉ fanIds (room this) ->
  let plain := updateFans fanMethod now this in
  let ignored (store : Status.Fan -> Status.Fan) (result : t * list effect * outcome) :=
    result = (withRoomStatus (setFan id store) plain.1.1, plain.1.2, plain.2)
    /\ (forall fan, fan ∈ Cfg.fans (room this) ->
          Status.fans (roomStatus result.1.1) !! Cfg.id fan
          = Status.fans (roomStatus this) !! Cfg.id fan)
    /\ forall now',
         updateFans fanMethod now' result.1.1 =
           (withRoomStatus (setFan id store) (updateFans fanMethod now' plain.1.1).1.1,
            (updateFans fanMethod now' plain.1.1).1.2,
            (updateFans fanMethod now' plain.1.1).2) in
  (forall data, ignored (storeControl data) (control fanMethod id data now this))
  /\ (forall data, ignored (storeSpeed data) (speed fanMethod id data now this))
  /\ (forall data, ignored (storeMinHumidityThreshold data)
                     (minHumidityThreshold fanMethod id data now this))
  /\ (forall data, ignored (storeMaxHumidityThreshold data)
                     (maxHumidityThreshold fanMethod id data now this))
  /\ (forall data, ignored (storeMinRunTime data) (minRunTime fanMethod id data now this))
  /\ (forall data, ignored (storeLightTimeout data)
                     (lightTimeout fanMethod id data now this))
  /\ (forall data, ignored (storeTrailingTime data)
                     (trailingTime fanMethod id data now this)).
Proof.
  intros Hid plain ignored.
  assert (Hall : forall store,
            ignored store
              (updateFans fanMethod now (withRoomStatus (setFan id store) this))).
  { intros store. unfold ignored.
    pose proof (updateFans_unknown_id now this id store Hid) as E.
    fold plain in E. rewrite E. simpl. split; [reflexivity|]. split.
    - intros fan Hfan. unfold plain. rewrite updateFans_roomStatus.
      unfold setFan. destruct (guardedKey id); [reflexivity|].
      simpl. apply lookup_insert_ne.
      intros ->. apply Hid. unfold fanIds. apply list_elem_of_fmap. eauto.
    - intros now'. apply updateFans_unknown_id.
      unfold plain. rewrite updateFans_room. exact Hid. }
  repeat (split; [intros data; apply Hall|]). intros data. apply Hall.
Qed.

(** C8.  The pass does not read the temperature: over two states that differ
    in [roomStatus.temperature] only, it has the same effects, the same
    outcome and the same [fansTrailing], and it leaves each temperature where
    it was; the mutator [temperature] stores its payload. *)
Theorem temperature_not_read now this (data1 data2 : entry Z) :
  let run1 := updateFans fanMethod now (withRoomStatus (setTemperature data1) this) in
  let run2 := updateFans fanMethod now (withRoomStatus (setTemperature data2) this) in
  run1.1.2 = run2.1.2
  /\ run1.2 = run2.2
  /\ fansTrailing run1.1.1 = fansTrailing run2.1.1
  /\ roomStatus run1.1.1 = setTemperature data1 (roomStatus this)
  /\ roomStatus run2.1.1 = setTemperature data2 (roomStatus this)
  /\ temperature fanMethod data1 now this = run1
  /\ Status.temperature (roomStatus (temperature fanMethod data1 now this).1.1) = data1.
Proof.
  intros run1 run2. subst run1 run2.
  rewrite !updateFans_agree by (intros; apply agreeOn_setTemperature).
  simpl. rewrite updateFans_roomStatus.
  assert (Ht : temperature fanMethod data1 now this =
            (withRoomStatus (setTemperature data1) (updateFans fanMethod now this).1.1,
             (updateFans fanMethod now this).1.2, (updateFans fanMethod now this).2)).
  { unfold temperature. apply updateFans_agree.
    intros. apply agreeOn_setTemperature. }
  repeat split; [exact Ht|]. rewrite Ht. reflexivity.
Qed.

(** ** What a pass does to [fansTrailing] *)

Lemma trailingStep_frame now rs fan tr (j : string) :
  j <> Cfg.id fan -> trailingStep now rs fan tr !! j = tr !! j.
Proof.
  intros Hj. unfold trailingStep, lightsOnStep, lightsOffStep.
  repeat case_match; rewrite ?lookup_insert_ne by congruence; reflexivity.
Qed.

Ltac case_lessThan :=
  match goal with
  | |- context [lessThan ?a ?b] => destruct (lessThan a b) eqn:?
  end.

Lemma trailing_local (tr1 tr2 : gmap string bool) (id : string) :
  tr1 !! id = tr2 !! id -> trailing tr1 id = trailing tr2 id.
Proof. unfold trailing. intros ->. reflexivity. Qed.

Lemma trailing_insert_true (tr : gmap string bool) (id : string) :
  trailing (<[id := true]> tr) id = true.
Proof. unfold trailing. rewrite lookup_insert_eq. apply orb_true_r. Qed.

(** What the trailing step does to the entry of the fan. *)
Lemma trailingStep_cases now rs fan (tr : gmap string bool) :
  let sc := scanLights rs (Cfg.triggerLights fan) in
  (anyLightOn sc = true /\ trailingStep now rs fan tr = <[Cfg.id fan := true]> tr)
  \/ (anyLightOn sc = false /\ trailing tr (Cfg.id fan) = true
      /\ trailingStep now rs fan tr = <[Cfg.id fan := false]> tr)
  \/ trailingStep now rs fan tr = tr.
Proof.
  intros sc. unfold trailingStep, lightsOnStep, lightsOffStep. fold sc.
  destruct (anyLightOn sc); cbn [andb negb].
  - destruct (truthy (minLightOnSince sc)); [|right; right; reflexivity].
    case_lessThan; [left; auto|right; right; reflexivity].
  - destruct (trailing tr (Cfg.id fan)); cbn [andb negb]; [|right; right; reflexivity].
    destruct (truthy (maxLightOffSince sc)); [|right; right; reflexivity].
    case_lessThan; [right; left; auto|right; right; reflexivity].
Qed.

(** Running the trailing step again, on a table that holds its result for
    the fan, changes nothing for the fan. *)
Lemma trailingStep_stable now rs fan (tr tr2 : gmap string bool) :
  tr2 !! Cfg.id fan = trailingStep now rs fan tr !! Cfg.id fan ->
  trailingStep now rs fan tr2 !! Cfg.id fan = tr2 !! Cfg.id fan.
Proof.
  unfold trailingStep, lightsOnStep, lightsOffStep.
  set (sc := scanLights rs (Cfg.triggerLights fan)).
  destruct (anyLightOn sc); cbn [andb negb].
  - destruct (truthy (minLightOnSince sc)); cbn [andb negb]; [|reflexivity].
    case_lessThan; [|reflexivity].
    rewrite !lookup_insert_eq. intros ->. reflexivity.
  - destruct (truthy (maxLightOffSince sc)); rewrite ?andb_false_r, ?andb_true_r;
      [|reflexivity].
    case_lessThan; [|destruct (trailing tr _), (trailing tr2 _); reflexivity].
    destruct (trailing tr (Cfg.id fan)) eqn:E.
    + rewrite lookup_insert_eq. intros H.
      destruct (trailing tr2 (Cfg.id fan)); [|reflexivity].
      rewrite lookup_insert_eq. symmetry. exact H.
    + intros H. rewrite (trailing_local tr2 tr _ H), E. reflexivity.
Qed.

Lemma durationRaises_local now rs fan (tr1 tr2 : gmap string bool) :
  tr1 !! Cfg.id fan = tr2 !! Cfg.id fan ->
  durationRaises now rs fan tr1 = durationRaises now rs fan tr2.
Proof.
  intros H. unfold durationRaises. rewrite (trailing_local tr1 tr2 _ H).
  reflexivity.
Qed.

(** A body that did not raise does not raise when run again on its result. *)
Lemma durationRaises_stable now rs fan (tr tr2 : gmap string bool) :
  durationRaises now rs fan tr = false ->
  tr2 !! Cfg.id fan = trailingStep now rs fan tr !! Cfg.id fan ->
  durationRaises now rs fan tr2 = false.
Proof.
  intros Hr H.
  destruct (trailing tr (Cfg.id fan)) eqn:Et.
  - revert Hr. unfold durationRaises. rewrite Et.
    destruct (anyLightOn _ && truthy _ && negb _); [discriminate|]. simpl.
    rewrite andb_true_r. intros Hq.
    destruct (trailing tr2 (Cfg.id fan)); [rewrite andb_true_r; exact Hq|].
    rewrite andb_false_r. reflexivity.
  - destruct (trailingStep_cases now rs fan tr) as [(Ha & E)|[(_ & Ht & _)|E]].
    + revert Hr. unfold durationRaises. rewrite Ha. simpl.
      rewrite orb_false_r. auto.
    + congruence.
    + rewrite E in H. rewrite (durationRaises_local now rs fan tr2 tr H).
      exact Hr.
Qed.

Lemma updateFan_frame now room rs tr fan (j : string) :
  j <> Cfg.id fan ->
  (updateFan fanMethod now room rs tr fan).1.1 !! j = tr !! j.
Proof.
  intros Hj. unfold updateFan.
  destruct (bool_decide _); [reflexivity|].
  destruct (keepRunning _ _ _); [reflexivity|].
  destruct (durationRaises _ _ _ _); [reflexivity|].
  simpl. apply trailingStep_frame, Hj.
Qed.

Lemma updateFan_stable now room rs (tr tr2 : gmap string bool) fan :
  tr2 !! Cfg.id fan = (updateFan fanMethod now room rs tr fan).1.1 !! Cfg.id fan ->
  (updateFan fanMethod now room rs tr2 fan).1.2
    = (updateFan fanMethod now room rs tr fan).1.2
  /\ (updateFan fanMethod now room rs tr2 fan).2
     = (updateFan fanMethod now room rs tr fan).2
  /\ (updateFan fanMethod now room rs tr2 fan).1.1 !! Cfg.id fan
     = tr2 !! Cfg.id fan.
Proof.
  unfold updateFan.
  destruct (bool_decide _); [auto|].
  destruct (keepRunning _ _ _); [auto|].
  destruct (durationRaises now rs fan tr) eqn:Hr; simpl; intros H.
  - rewrite (durationRaises_local now rs fan tr2 tr H), Hr. auto.
  - rewrite (durationRaises_stable now rs fan tr tr2 Hr H).
    pose proof (trailingStep_stable now rs fan tr tr2 H) as Hs.
    assert (Hn : newSpeedOf rs fan (trailingStep now rs fan tr2)
                 = newSpeedOf rs fan (trailingStep now rs fan tr)).
    { unfold newSpeedOf.
      rewrite (trailing_local (trailingStep now rs fan tr2)
                 (trailingStep now rs fan tr) (Cfg.id fan)) by congruence.
      reflexivity. }
    rewrite Hn. auto.
Qed.

Lemma updateFansLoop_frame now room rs (fans : list Cfg.Fan) (j : string) :
  j ∉ map Cfg.id fans ->
  forall tr, (updateFansLoop fanMethod now room rs tr fans).1.1 !! j = tr !! j.
Proof.
  induction fans as [|fan rest IH]; intros Hj tr; [reflexivity|].
  simpl in *. apply not_elem_of_cons in Hj. destruct Hj as [Hne Hj].
  pose proof (updateFan_frame now room rs tr fan j Hne) as Hf.
  destruct (updateFan fanMethod now room rs tr fan) as [[tr1 e1] [|]];
    simpl in *; [|exact Hf].
  specialize (IH Hj tr1).
  destruct (updateFansLoop fanMethod now room rs tr1 rest) as [[tr2 e2] o2].
  simpl in *. congruence.
Qed.

(** The loop, run again over a table that holds the first run's results for
    the fans of the list, repeats the first run. *)
Lemma updateFansLoop_stable now room rs (fans : list Cfg.Fan) :
  NoDup (map Cfg.id fans) ->
  forall tr tr2 : gmap string bool,
    (forall j, j ∈ map Cfg.id fans ->
       tr2 !! j = (updateFansLoop fanMethod now room rs tr fans).1.1 !! j) ->
    (updateFansLoop fanMethod now room rs tr2 fans).1.2
      = (updateFansLoop fanMethod now room rs tr fans).1.2
    /\ (updateFansLoop fanMethod now room rs tr2 fans).2
       = (updateFansLoop fanMethod now room rs tr fans).2
    /\ forall j, (updateFansLoop fanMethod now room rs tr2 fans).1.1 !! j = tr2 !! j.
Proof.
  induction fans as [|fan rest IH]; intros Hnd tr tr2 H; [simpl; auto|].
  simpl in Hnd. apply NoDup_cons in Hnd. destruct Hnd as [Hfresh Hnd].
  specialize (IH Hnd). simpl in *.
  pose proof (updateFan_stable now room rs tr tr2 fan) as Hst.
  pose proof (fun j => updateFan_frame now room rs tr2 fan j) as Hfr2.
  pose proof (updateFansLoop_frame now room rs rest (Cfg.id fan) Hfresh) as Hlf.
  destruct (updateFan fanMethod now room rs tr fan) as [[tr1 e1] o1] eqn:E1.
  destruct (updateFan fanMethod now room rs tr2 fan) as [[t1 d1] p1] eqn:E2.
  simpl in *.
  assert (Hown : tr2 !! Cfg.id fan = tr1 !! Cfg.id fan).
  { rewrite (H (Cfg.id fan)) by left.
    destruct o1; simpl; [|reflexivity].
    specialize (Hlf tr1).
    destruct (updateFansLoop fanMethod now room rs tr1 rest) as [[? ?] ?].
    exact Hlf. }
  destruct (Hst Hown) as (-> & -> & Hkeep).
  assert (Hsame : forall j, t1 !! j = tr2 !! j).
  { intros j. destruct (decide (j = Cfg.id fan)) as [->|Hne]; auto. }
  destruct o1; simpl; [|auto].
  specialize (IH tr1 t1).
  destruct (updateFansLoop fanMethod now room rs tr1 rest) as [[tr3 e3] o3].
  destruct (updateFansLoop fanMethod now room rs t1 rest) as [[t3 d3] p3].
  simpl in *.
  destruct IH as (-> & -> & Hk).
  { intros j Hj. rewrite Hsame. apply H. right. exact Hj. }
  repeat split. intros j. rewrite Hk. apply Hsame.
Qed.

(** ** The speed record is fed back by the mutator [speed]

    The pass publishes the new speed and the process receives its own
    message on the topic of the fan, which calls [speed(id, data)].  Once the
    record holds the speed the body chose, the body run again at the same
    clock reading publishes nothing, be it held by the minimum run time or
    not. *)
Lemma recorded_speed_no_publish now room rs tr fan (since' : option Z) :
  automatic now rs fan = true ->
  guardedKey (Cfg.id fan) = false ->
  let tr' := trailingStep now rs fan tr in
  let newSpeed := newSpeedOf rs fan tr' in
  let rs' := setFan (Cfg.id fan) (storeSpeed (Entry (Some newSpeed) since')) rs in
  existsb isPublish (updateFan fanMethod now room rs' tr' fan).1.2 = false.
Proof.
  intros Hauto Hkey tr' newSpeed rs'.
  assert (Hctl : controlOf rs fan <> "manual").
  { unfold automatic in Hauto. flip_bools. assumption. }
  destruct (Status.fans rs !! Cfg.id fan) as [f|] eqn:Ef.
  2:{ exfalso. apply Hctl. unfold controlOf, getFanValue. rewrite Ef. reflexivity. }
  assert (Ef' : Status.fans rs' !! Cfg.id fan
                = Some (storeSpeed (Entry (Some newSpeed) since') f)).
  { unfold rs', setFan. rewrite Hkey. simpl.
    rewrite lookup_insert_eq, Ef. reflexivity. }
  assert (Hlights : Status.lights rs' = Status.lights rs).
  { unfold rs', setFan. rewrite Hkey. reflexivity. }
  assert (Hhum : humidityOf rs' = humidityOf rs).
  { unfold rs', setFan. rewrite Hkey. reflexivity. }
  assert (Hsp : speedOf rs' fan = newSpeed).
  { unfold speedOf, getFanValue. rewrite Ef'. reflexivity. }
  assert (Hstep : trailingStep now rs' fan tr' !! Cfg.id fan = tr' !! Cfg.id fan).
  { assert (E : trailingStep now rs' fan tr' = trailingStep now rs fan tr').
    { unfold trailingStep, trailingTimeOf, lightTimeoutOf, getFanValue.
      rewrite Ef', Ef, (scanLights_lights rs' rs _ Hlights). reflexivity. }
    rewrite E. apply (trailingStep_stable now rs fan tr tr'). reflexivity. }
  assert (Hns : newSpeedOf rs' fan (trailingStep now rs' fan tr') = newSpeed).
  { unfold newSpeedOf at 1.
    rewrite (trailing_local _ tr' _ Hstep), Hsp, Hhum.
    destruct (trailing tr' (Cfg.id fan)) eqn:Et;
      unfold newSpeed, newSpeedOf; rewrite Et; [reflexivity|].
    unfold minHumidityThresholdOf, maxHumidityThresholdOf, getFanValue.
    rewrite Ef', Ef. simpl. apply humiditySpeed_idempotent. }
  unfold updateFan.
  destruct (bool_decide (controlOf rs' fan = "manual")); [reflexivity|].
  destruct (keepRunning now rs' fan); [reflexivity|].
  destruct (durationRaises now rs' fan tr'); [reflexivity|].
  simpl. rewrite Hns, Hsp. rewrite bool_decide_eq_true_2 by reflexivity.
  reflexivity.
Qed.

(** C6 (as amended).  With distinct fan ids, a second pass at the same clock
    reading repeats the first: the same effects (the publishes of the first
    pass included), the same outcome, and the state the first pass left; no
    pass writes [roomStatus], so every [speed.since] stays. *)
Theorem second_pass_repeats_first now this :
  NoDup (fanIds (room this)) ->
  let first := updateFans fanMethod now this in
  updateFans fanMethod now first.1.1 = first
  /\ roomStatus first.1.1 = roomStatus this
  /\ (existsb isPublish (updateFans fanMethod now first.1.1).1.2
      = existsb isPublish first.1.2).
Proof.
  intros Hnd first.
  assert (Hrep : updateFans fanMethod now first.1.1 = first).
  { subst first. unfold updateFans. unfold fanIds in Hnd.
    pose proof (updateFansLoop_stable now (room this) (roomStatus this)
                  (Cfg.fans (room this)) Hnd (fansTrailing this)) as Hst.
    destruct (updateFansLoop fanMethod now (room this) (roomStatus this)
                (fansTrailing this) (Cfg.fans (room this))) as [[tr1 e1] o1].
    simpl in *. specialize (Hst tr1 (fun _ _ => eq_refl)).
    destruct (updateFansLoop fanMethod now (room this) (roomStatus this) tr1
                (Cfg.fans (room this))) as [[tr2 e2] o2].
    simpl in *. destruct Hst as (-> & -> & Hk).
    apply map_eq in Hk. subst tr2. reflexivity. }
  split; [exact Hrep|]. split; [apply updateFans_roomStatus|].
  rewrite Hrep. reflexivity.
Qed.

End Properties.

(** ** The properties at concrete rooms *)

Lemma humidity_cascade_witness :
  let rs := roomStatus (bathAuto 85 (Entry (Some "off") None) ∅) in
  automatic 1000 rs bathFan = true
  /\ humidityOf rs = Some 85
  /\ 85 <> 0
  /\ humiditySpeed (humidityOf rs) (speedOf rs bathFan)
       (minHumidityThresholdOf rs bathFan) (maxHumidityThresholdOf rs bathFan)
     = cascadeSpec 85 (speedOf rs bathFan) (minHumidityThresholdOf rs bathFan)
         (maxHumidityThresholdOf rs bathFan).
Proof.
  intros rs.
  assert (H1 : automatic 1000 rs bathFan = true) by reflexivity.
  assert (H2 : humidityOf rs = Some 85) by reflexivity.
  assert (H3 : 85 <> 0) by discriminate.
  split; [exact H1|]. split; [exact H2|]. split; [exact H3|].
  exact (proj1 (humidity_cascade threeSpeeds 1000 bath rs ∅ bathFan 85 H1 H2 H3)).
Defined.

Lemma min_run_time_guard_witness :
  let rs := roomStatus (bathAuto 50 (Entry (Some "max") (Some 0)) ∅) in
  controlOf rs bathFan = "auto"
  /\ speedOf rs bathFan <> "off"
  /\ elapsedOf 10000 rs bathFan = Some 10000
  /\ 10000 < 1000 * minRunTimeOf rs bathFan
  /\ minRunTimeOf rs bathFan < exponentForm
  /\ updateFan threeSpeeds 10000 bath rs ∅ bathFan = (∅, [], Next).
Proof.
  intros rs.
  assert (H1 : controlOf rs bathFan = "auto") by reflexivity.
  assert (H2 : speedOf rs bathFan <> "off") by (vm_compute; discriminate).
  assert (H3 : elapsedOf 10000 rs bathFan = Some 10000) by reflexivity.
  assert (H4 : 10000 < 1000 * minRunTimeOf rs bathFan) by (vm_compute; reflexivity).
  assert (H5 : minRunTimeOf rs bathFan < exponentForm) by (vm_compute; reflexivity).
  split; [exact H1|]. split; [exact H2|]. split; [exact H3|].
  split; [exact H4|]. split; [exact H5|].
  exact (proj1 (min_run_time_guard threeSpeeds 10000 bath rs ∅ bathFan 10000
                  H1 H2 H3 H4 H5)).
Defined.

Lemma manual_mode_witness :
  let rs := roomStatus (constructor bath) in
  controlOf rs bathFan = "manual"
  /\ updateFan threeSpeeds 1000 bath rs ∅ bathFan
     = (∅, [Actuate "fan" (speedOf rs bathFan)], call threeSpeeds (speedOf rs bathFan)).
Proof.
  intros rs.
  assert (H1 : controlOf rs bathFan = "manual") by reflexivity.
  split; [exact H1|].
  exact (proj1 (manual_mode threeSpeeds 1000 bath rs ∅ bathFan H1)).
Defined.

Lemma commit_publish_and_actuate_witness :
  let this := bathAuto 85 (Entry (Some "off") None) ∅ in
  automatic 1000 (roomStatus this) bathFan = true
  /\ (updateFan threeSpeeds 1000 (room this) (roomStatus this)
        (fansTrailing this) bathFan).1.2
     = (if durationRaises 1000 (roomStatus this) bathFan (fansTrailing this)
        then []
        else if decide
                  (speedOf (roomStatus this) bathFan
                   = newSpeedOf (roomStatus this) bathFan
                       (trailingStep 1000 (roomStatus this) bathFan
                          (fansTrailing this)))
        then [Actuate (Cfg.id bathFan)
                (newSpeedOf (roomStatus this) bathFan
                   (trailingStep 1000 (roomStatus this) bathFan
                      (fansTrailing this)))]
        else [Publish (Cfg.roomId (room this)) (Cfg.id bathFan)
                (newSpeedOf (roomStatus this) bathFan
                   (trailingStep 1000 (roomStatus this) bathFan
                      (fansTrailing this)));
              Actuate (Cfg.id bathFan)
                (newSpeedOf (roomStatus this) bathFan
                   (trailingStep 1000 (roomStatus this) bathFan
                      (fansTrailing this)))]).
Proof.
  intros this.
  assert (H1 : automatic 1000 (roomStatus this) bathFan = true) by reflexivity.
  split; [exact H1|].
  exact (proj1 (commit_publish_and_actuate threeSpeeds 1000 this bathFan H1)).
Defined.

Lemma second_pass_repeats_first_witness :
  let this := bathAuto 85 (Entry (Some "off") None) ∅ in
  NoDup (fanIds (room this))
  /\ updateFans threeSpeeds 1000 (updateFans threeSpeeds 1000 this).1.1
     = updateFans threeSpeeds 1000 this.
Proof.
  intros this.
  assert (H1 : NoDup (fanIds (room this))).
  { apply NoDup_cons. split; [apply not_elem_of_nil|apply NoDup_nil_2]. }
  split; [exact H1|].
  exact (proj1 (second_pass_repeats_first threeSpeeds 1000 this H1)).
Defined.

Lemma unknown_fan_id_ignored_witness :
  let this := bathAuto 85 (Entry (Some "off") None) ∅ in
  ("ghost" ∉ fanIds (room this))
  /\ forall data,
       (control threeSpeeds "ghost" data 1000 this).1.2
       = (updateFans threeSpeeds 1000 this).1.2.
Proof.
  intros this.
  assert (H1 : "ghost" ∉ fanIds (room this)).
  { apply not_elem_of_cons. split; [discriminate|apply not_elem_of_nil]. }
  split; [exact H1|]. intros data.
  exact (f_equal (fun r => r.1.2)
           (proj1 (proj1 (unknown_fan_id_ignored threeSpeeds 1000 this "ghost" H1) data))).
Defined.

Lemma zero_humidity_is_absent_witness :
  let rs :=
    setFan "fan" (storeMaxHumidityThreshold (Entry (Some (-1)) None))
      (roomStatus (bathAuto 0 (Entry (Some "min") (Some 0)) ∅)) in
  automatic 130000 rs bathFan = true
  /\ humidityOf rs = Some 0
  /\ maxHumidityThresholdOf rs bathFan = -1
  /\ humiditySpeed (humidityOf rs) (speedOf rs bathFan)
       (minHumidityThresholdOf rs bathFan) (maxHumidityThresholdOf rs bathFan)
     = "off".
Proof.
  intros rs.
  assert (H1 : automatic 130000 rs bathFan = true) by reflexivity.
  assert (H2 : humidityOf rs = Some 0) by reflexivity.
  split; [exact H1|]. split; [exact H2|]. split; [reflexivity|].
  exact (proj1 (zero_humidity_is_absent threeSpeeds 130000 bath rs ∅ bathFan H1 H2)).
Defined.

Lemma trailing_without_off_since_witness :
  let this := bathAuto 50 (Entry (Some "off") None) {["fan" := true]} in
  trailing (fansTrailing this) "fan" = true
  /\ (forall lightId, lightId ∈ Cfg.triggerLights bathFan ->
        Status.lights (roomStatus this) !! lightId ≫= value <> Some (LText "on")
        /\ Status.lights (roomStatus this) !! lightId ≫= since = None)
  /\ trailing (updateFan threeSpeeds 1000 bath (roomStatus this)
                 (fansTrailing this) bathFan).1.1 "fan" = true.
Proof.
  intros this.
  assert (H1 : trailing (fansTrailing this) (Cfg.id bathFan) = true) by reflexivity.
  assert (H2 : forall lightId, lightId ∈ Cfg.triggerLights bathFan ->
             Status.lights (roomStatus this) !! lightId ≫= value <> Some (LText "on")
             /\ Status.lights (roomStatus this) !! lightId ≫= since = None).
  { intros lightId Hin. apply list_elem_of_singleton in Hin. subst lightId.
    split; [vm_compute; discriminate|reflexivity]. }
  split; [exact H1|]. split; [exact H2|].
  exact (proj1 (proj2
           (trailing_without_off_since threeSpeeds 1000 bath (roomStatus this)
              (fansTrailing this) bathFan H1 H2))).
Defined.

(** ** The scenario of section 8 of the specification

    One fan with thresholds 60 and 80 and a minimum run time of 120 s, in
    automatic mode and off.  Humidity 85: the pass publishes and commands
    ['max'].  The record then holds ['max'] since time 0; humidity 50 after
    10 s: the fan is held; after 130 s: the pass publishes and commands
    ['off']. *)
Example scenario_humidity_85 :
  (updateFans threeSpeeds 0 (bathAuto 85 (Entry (Some "off") None) ∅)).1.2
  = [Publish "bath" "fan" "max"; Actuate "fan" "max"].
Proof. reflexivity. Qed.

Example scenario_held_after_10s :
  (updateFans threeSpeeds 10000 (bathAuto 50 (Entry (Some "max") (Some 0)) ∅)).1.2
  = [].
Proof. reflexivity. Qed.

Example scenario_off_after_130s :
  (updateFans threeSpeeds 130000 (bathAuto 50 (Entry (Some "max") (Some 0)) ∅)).1.2
  = [Publish "bath" "fan" "off"; Actuate "fan" "off"].
Proof. reflexivity. Qed.

(** A speed that the fan control has no method for: the call raises and the
    pass ends there. *)
Example manual_unknown_speed_raises :
  updateFan threeSpeeds 0 bath
    (setFan "fan" (storeSpeed (Entry (Some "turbo") None))
       (roomStatus (constructor bath)))
    ∅ bathFan
  = (∅, [Actuate "fan" "turbo"], Raised).
Proof. reflexivity. Qed.

(** ** Where the code departs from the specification *)

(** C2.  Humidity 85 over a maximum threshold of 80 while the fan trails
    (the trigger light is off and its entry has no [since]): the humidity
    block chooses ['max'] and line 212 replaces it, so the pass publishes and
    commands ['min']. *)
Theorem trailing_lowers_max_decision :
  let this := bathAuto 85 (Entry (Some "off") None) {["fan" := true]} in
  automatic 1000 (roomStatus this) bathFan = true
  /\ humidityOf (roomStatus this) = Some 85
  /\ maxHumidityThresholdOf (roomStatus this) bathFan = 80
  /\ humiditySpeed (humidityOf (roomStatus this)) (speedOf (roomStatus this) bathFan)
       (minHumidityThresholdOf (roomStatus this) bathFan)
       (maxHumidityThresholdOf (roomStatus this) bathFan) = "max"
  /\ trailing (updateFans threeSpeeds 1000 this).1.1.(fansTrailing) "fan" = true
  /\ (updateFans threeSpeeds 1000 this).1.2
     = [Publish "bath" "fan" "min"; Actuate "fan" "min"].
Proof. vm_compute. repeat split. Qed.

(** C1, as stated, fails at a reading of [0]: for a fan at ['min'] with a
    minimum threshold of [3] the cascade of the specification keeps ['min']
    (0 > 3 - 5), and the code, which skips the block for a falsy reading,
    chooses ['off']. *)
Lemma zero_reading_skips_cascade :
  ~ cascadeForPresentSpec 130000 zeroReading bathFan.
Proof.
  unfold cascadeForPresentSpec. intros H.
  specialize (H eq_refl 0 eq_refl). vm_compute in H. discriminate H.
Qed.

(** C3, as stated, fails at a minimum run time of [1e21] seconds: the text
    [1e+21s] is no duration for [ms], the guard compares with [0], and the
    fan set to ['max'] ten seconds ago is switched off. *)
Lemma exponent_run_time_is_not_held :
  ~ guardForEveryRunTimeSpec threeSpeeds 10000 bath longRunTime ∅ bathFan.
Proof.
  unfold guardForEveryRunTimeSpec. intros H.
  assert (H1 : controlOf longRunTime bathFan = "auto") by reflexivity.
  assert (H2 : speedOf longRunTime bathFan <> "off") by (vm_compute; discriminate).
  assert (H3 : exists d, elapsedOf 10000 longRunTime bathFan = Some d
                         /\ d < 1000 * minRunTimeOf longRunTime bathFan).
  { exists 10000. split; [reflexivity|vm_compute; reflexivity]. }
  specialize (H H1 H2 H3). vm_compute in H. discriminate H.
Qed.

(** C5, as stated, fails: with humidity 85 the pass publishes ['max'] for a
    fan recorded as ['off'], and the record of the fan is still
    [{value: 'off'}] afterwards. *)
Lemma speed_record_not_written :
  ~ speedRecordedSpec threeSpeeds 1000 (bathAuto 85 (Entry (Some "off") None) ∅)
      bathFan.
Proof.
  unfold speedRecordedSpec. intros H.
  specialize (H eq_refl).
  assert (Hne : speedOf (roomStatus (bathAuto 85 (Entry (Some "off") None) ∅)) bathFan
                <> newSpeedOf (roomStatus (bathAuto 85 (Entry (Some "off") None) ∅))
                     bathFan
                     (trailingStep 1000
                        (roomStatus (bathAuto 85 (Entry (Some "off") None) ∅))
                        bathFan
                        (fansTrailing (bathAuto 85 (Entry (Some "off") None) ∅))))
    by (vm_compute; discriminate).
  specialize (H Hne). vm_compute in H. discriminate H.
Qed.

(** C6, as stated, fails: the pass of the example above publishes ['max'],
    the record still says ['off'], and the second pass publishes ['max']
    again. *)
Lemma second_pass_publishes_again :
  ~ secondPassSilentSpec threeSpeeds 1000 (bathAuto 85 (Entry (Some "off") None) ∅).
Proof. unfold secondPassSilentSpec. vm_compute. discriminate. Qed.

(** * Further properties of the pass *)

Section Coverage.

Variable fanMethod : string -> bool.

Ltac to_props :=
  repeat match goal with
  | H : _ && _ = true |- _ => apply andb_prop in H; destruct H
  | H : _ || _ = false |- _ => apply orb_false_elim in H; destruct H
  | H : negb _ = true |- _ => apply negb_true_iff in H
  | H : negb _ = false |- _ => apply negb_false_iff in H
  | H : bool_decide _ = true |- _ => apply bool_decide_eq_true in H
  | H : bool_decide _ = false |- _ => apply bool_decide_eq_false in H
  | H : (_ <? _) = true |- _ => apply Z.ltb_lt in H
  | H : (_ <? _) = false |- _ => apply Z.ltb_ge in H
  | H : (_ =? _) = true |- _ => apply Z.eqb_eq in H
  | H : (_ =? _) = false |- _ => apply Z.eqb_neq in H
  end.

Lemma ms_max n : n < exponentForm -> ms n = 1000 * Z.max 0 n.
Proof.
  intros Hn. unfold ms.
  assert (E2 : (exponentForm <=? n) = false) by (apply Z.leb_gt; exact Hn).
  rewrite E2, orb_false_r. destruct (n <? 0) eqn:E; to_props; lia.
Qed.

Lemma truthy_Some t : truthy (Some t) = true <-> t <> 0.
Proof.
  simpl. rewrite negb_true_iff. split; intros H.
  - apply Z.eqb_neq, H.
  - apply Z.eqb_neq, H.
Qed.

(** ** The loop over the trigger lights *)

Lemma scanLight_on rs acc x :
  isOn rs x = true ->
  scanLight rs acc x =
    LightScan
      (if negb (truthy (minLightOnSince acc))
          || lessThan (lightSince rs x) (minLightOnSince acc)
       then lightSince rs x else minLightOnSince acc)
      (maxLightOffSince acc) true.
Proof. unfold isOn, scanLight, lightSince. intros ->. reflexivity. Qed.

Lemma scanLight_off rs acc x :
  isOn rs x = false ->
  scanLight rs acc x =
    LightScan (minLightOnSince acc)
      (if negb (truthy (maxLightOffSince acc))
          || lessThan (maxLightOffSince acc) (lightSince rs x)
       then lightSince rs x else maxLightOffSince acc)
      (anyLightOn acc).
Proof. unfold isOn, scanLight, lightSince. intros ->. reflexivity. Qed.

Lemma fold_scan_anyLightOn rs (l : list string) acc :
  anyLightOn (fold_left (scanLight rs) l acc) = true
  <-> anyLightOn acc = true \/ exists x, x ∈ l /\ isOn rs x = true.
Proof.
  revert acc. induction l as [|x l IH]; intros acc; simpl.
  - split; [auto|]. intros [H|(x & Hx & _)]; [exact H|].
    apply elem_of_nil in Hx. contradiction.
  - rewrite IH. destruct (isOn rs x) eqn:E.
    + rewrite (scanLight_on _ _ _ E). simpl. split.
      * intros _. right. exists x. split; [left|exact E].
      * intros _. left. reflexivity.
    + rewrite (scanLight_off _ _ _ E). simpl. split.
      * intros [H|(y & Hy & Hon)]; [left; exact H|].
        right. exists y. split; [right; exact Hy|exact Hon].
      * intros [H|(y & Hy & Hon)]; [left; exact H|].
        apply elem_of_cons in Hy. destruct Hy as [->|Hy]; [congruence|].
        right. exists y. auto.
Qed.

(** The earliest [since] among the lights that are on, when each of them
    carries a truthy one: what the fold holds in [minLightOnSince]. *)
Lemma fold_scan_min rs (l : list string) :
  (forall x, x ∈ l -> isOn rs x = true ->
     exists t, lightSince rs x = Some t /\ t <> 0) ->
  forall acc,
    (minLightOnSince acc = None
     \/ exists m, minLightOnSince acc = Some m /\ m <> 0) ->
    let r := fold_left (scanLight rs) l acc in
    (minLightOnSince r = None
     \/ exists m, minLightOnSince r = Some m /\ m <> 0)
    /\ (forall m, minLightOnSince acc = Some m ->
          exists m', minLightOnSince r = Some m' /\ m' <= m)
    /\ (forall x t, x ∈ l -> isOn rs x = true -> lightSince rs x = Some t ->
          exists m', minLightOnSince r = Some m' /\ m' <= t)
    /\ (forall m', minLightOnSince r = Some m' ->
          minLightOnSince acc = Some m'
          \/ exists x, x ∈ l /\ isOn rs x = true /\ lightSince rs x = Some m').
Proof.
  induction l as [|x l IH]; intros Hl acc Hacc; simpl.
  - split; [exact Hacc|]. split; [eauto with lia|]. split.
    + intros y t Hy. apply elem_of_nil in Hy. contradiction.
    + auto.
  - assert (Hl' : forall y, y ∈ l -> isOn rs y = true ->
              exists t, lightSince rs y = Some t /\ t <> 0).
    { intros y Hy. apply Hl. right. exact Hy. }
    destruct (isOn rs x) eqn:E.
    + destruct (Hl x) as (t & Ht & Hne); [left|exact E|].
      rewrite (scanLight_on _ _ _ E). rewrite Ht.
      set (acc' := LightScan _ _ _).
      assert (Hacc' : exists m, minLightOnSince acc' = Some m /\ m <> 0
                /\ m <= t
                /\ (forall m0, minLightOnSince acc = Some m0 -> m <= m0)
                /\ (m = t \/ minLightOnSince acc = Some m)).
      { subst acc'. simpl. destruct Hacc as [Hn|(m & Hm & Hm0)].
        - rewrite Hn. simpl. exists t. repeat split; auto with lia.
          intros m0 Hm0. discriminate.
        - rewrite Hm. simpl. apply Z.eqb_neq in Hm0. rewrite Hm0. simpl.
          destruct (t <? m) eqn:C; to_props.
          + exists t. repeat split; auto with lia.
            intros m0 Em. injection Em as <-. lia.
          + exists m. repeat split; auto with lia.
            intros m0 Em. injection Em as <-. lia. }
      destruct Hacc' as (m & Hm & Hm0 & Hmt & Hle & Hfrom).
      destruct (IH Hl' acc') as (H1 & H2 & H3 & H4); [right; eauto|].
      split; [exact H1|]. split; [|split].
      * intros m0 Em. destruct (H2 m Hm) as (m' & E' & Hle').
        exists m'. split; [exact E'|]. specialize (Hle m0 Em). lia.
      * intros y ty Hy Hon Hty. apply elem_of_cons in Hy.
        destruct Hy as [->|Hy].
        -- rewrite Ht in Hty. injection Hty as <-.
           destruct (H2 m Hm) as (m' & E' & Hle'). exists m'. split; [exact E'|lia].
        -- apply (H3 y ty Hy Hon Hty).
      * intros m' E'. destruct (H4 m' E') as [Hm'|(y & Hy & Hon & Hty)].
        -- rewrite Hm in Hm'. injection Hm' as <-.
           destruct Hfrom as [->|Hfrom]; [|left; exact Hfrom].
           right. exists x. split; [left|]. split; [exact E|exact Ht].
        -- right. exists y. split; [right; exact Hy|]. auto.
    + rewrite (scanLight_off _ _ _ E).
      set (acc' := LightScan _ _ _).
      destruct (IH Hl' acc' Hacc) as (H1 & H2 & H3 & H4).
      split; [exact H1|]. split; [exact H2|]. split.
      * intros y ty Hy Hon Hty. apply elem_of_cons in Hy.
        destruct Hy as [->|Hy]; [congruence|]. apply (H3 y ty Hy Hon Hty).
      * intros m' E'. destruct (H4 m' E') as [Hm'|(y & Hy & Hon & Hty)].
        -- left. exact Hm'.
        -- right. exists y. split; [right; exact Hy|]. auto.
Qed.

(** The latest [since] among the lights that are not on, when each of them
    carries a truthy one: what the fold holds in [maxLightOffSince]. *)
Lemma fold_scan_max rs (l : list string) :
  (forall x, x ∈ l -> isOn rs x = false ->
     exists t, lightSince rs x = Some t /\ t <> 0) ->
  forall acc,
    (maxLightOffSince acc = None
     \/ exists m, maxLightOffSince acc = Some m /\ m <> 0) ->
    let r := fold_left (scanLight rs) l acc in
    (maxLightOffSince r = None
     \/ exists m, maxLightOffSince r = Some m /\ m <> 0)
    /\ (forall m, maxLightOffSince acc = Some m ->
          exists m', maxLightOffSince r = Some m' /\ m <= m')
    /\ (forall x t, x ∈ l -> isOn rs x = false -> lightSince rs x = Some t ->
          exists m', maxLightOffSince r = Some m' /\ t <= m')
    /\ (forall m', maxLightOffSince r = Some m' ->
          maxLightOffSince acc = Some m'
          \/ exists x, x ∈ l /\ isOn rs x = false /\ lightSince rs x = Some m').
Proof.
  induction l as [|x l IH]; intros Hl acc Hacc; simpl.
  - split; [exact Hacc|]. split; [eauto with lia|]. split.
    + intros y t Hy. apply elem_of_nil in Hy. contradiction.
    + auto.
  - assert (Hl' : forall y, y ∈ l -> isOn rs y = false ->
              exists t, lightSince rs y = Some t /\ t <> 0).
    { intros y Hy. apply Hl. right. exact Hy. }
    destruct (isOn rs x) eqn:E.
    + rewrite (scanLight_on _ _ _ E).
      set (acc' := LightScan _ _ _).
      destruct (IH Hl' acc' Hacc) as (H1 & H2 & H3 & H4).
      split; [exact H1|]. split; [exact H2|]. split.
      * intros y ty Hy Hoff Hty. apply elem_of_cons in Hy.
        destruct Hy as [->|Hy]; [congruence|]. apply (H3 y ty Hy Hoff Hty).
      * intros m' E'. destruct (H4 m' E') as [Hm'|(y & Hy & Hoff & Hty)].
        -- left. exact Hm'.
        -- right. exists y. split; [right; exact Hy|]. auto.
    + destruct (Hl x) as (t & Ht & Hne); [left|exact E|].
      rewrite (scanLight_off _ _ _ E). rewrite Ht.
      set (acc' := LightScan _ _ _).
      assert (Hacc' : exists m, maxLightOffSince acc' = Some m /\ m <> 0
                /\ t <= m
                /\ (forall m0, maxLightOffSince acc = Some m0 -> m0 <= m)
                /\ (m = t \/ maxLightOffSince acc = Some m)).
      { subst acc'. simpl. destruct Hacc as [Hn|(m & Hm & Hm0)].
        - rewrite Hn. simpl. exists t. repeat split; auto with lia.
          intros m0 Hm0. discriminate.
        - rewrite Hm. simpl. apply Z.eqb_neq in Hm0. rewrite Hm0. simpl.
          destruct (m <? t) eqn:C; to_props.
          + exists t. repeat split; auto with lia.
            intros m0 Em. injection Em as <-. lia.
          + exists m. repeat split; auto with lia.
            intros m0 Em. injection Em as <-. lia. }
      destruct Hacc' as (m & Hm & Hm0 & Hmt & Hle & Hfrom).
      destruct (IH Hl' acc') as (H1 & H2 & H3 & H4); [right; eauto|].
      split; [exact H1|]. split; [|split].
      * intros m0 Em. destruct (H2 m Hm) as (m' & E' & Hle').
        exists m'. split; [exact E'|]. specialize (Hle m0 Em). lia.
      * intros y ty Hy Hoff Hty. apply elem_of_cons in Hy.
        destruct Hy as [->|Hy].
        -- rewrite Ht in Hty. injection Hty as <-.
           destruct (H2 m Hm) as (m' & E' & Hle'). exists m'. split; [exact E'|lia].
        -- apply (H3 y ty Hy Hoff Hty).
      * intros m' E'. destruct (H4 m' E') as [Hm'|(y & Hy & Hoff & Hty)].
        -- rewrite Hm in Hm'. injection Hm' as <-.
           destruct Hfrom as [->|Hfrom]; [|left; exact Hfrom].
           right. exists x. split; [left|]. split; [exact E|exact Ht].
        -- right. exists y. split; [right; exact Hy|]. auto.
Qed.

Lemma scanLights_anyLightOn rs (l : list string) :
  anyLightOn (scanLights rs l) = true <-> exists x, x ∈ l /\ isOn rs x = true.
Proof.
  unfold scanLights. rewrite fold_scan_anyLightOn. simpl. split.
  - intros [H|H]; [discriminate|exact H].
  - intros H. right. exact H.
Qed.

Lemma scanLights_none_on rs (l : list string) :
  (forall x, x ∈ l -> isOn rs x = false) -> anyLightOn (scanLights rs l) = false.
Proof.
  intros H. apply not_true_is_false. rewrite scanLights_anyLightOn.
  intros (x & Hx & Hon). rewrite (H x Hx) in Hon. discriminate.
Qed.

(** X1.  The loop over [fan.triggerLights] (lines 165-183), the lights that
    are on: [anyLightOn] holds exactly when one of the trigger lights is on,
    and when every light that is on carries a [since] other than [0],
    [minLightOnSince] ends as the earliest of them: it is the [since] of one
    of these lights and none of them is earlier. *)
Theorem earliest_light_on rs (triggerLights : list string) :
  (forall x, x ∈ triggerLights -> isOn rs x = true ->
     exists t, lightSince rs x = Some t /\ t <> 0) ->
  (exists x, x ∈ triggerLights /\ isOn rs x = true) ->
  anyLightOn (scanLights rs triggerLights) = true
  /\ exists m,
      minLightOnSince (scanLights rs triggerLights) = Some m
      /\ m <> 0
      /\ (exists x, x ∈ triggerLights /\ isOn rs x = true
                    /\ lightSince rs x = Some m)
      /\ forall x t, x ∈ triggerLights -> isOn rs x = true ->
           lightSince rs x = Some t -> m <= t.
Proof.
  intros Hl (x & Hx & Hon).
  split; [apply scanLights_anyLightOn; eauto|].
  destruct (fold_scan_min rs triggerLights Hl (LightScan None None false))
    as (H1 & _ & H3 & H4); [left; reflexivity|].
  fold (scanLights rs triggerLights) in *.
  destruct (Hl x Hx Hon) as (t & Ht & _).
  destruct (H3 x t Hx Hon Ht) as (m & Hm & _).
  exists m. split; [exact Hm|]. split.
  { destruct H1 as [H1|(m0 & E0 & Hne)]; congruence. }
  split.
  - destruct (H4 m Hm) as [H|H]; [discriminate|exact H].
  - intros y ty Hy Hyon Hty. destruct (H3 y ty Hy Hyon Hty) as (m' & E' & Hle).
    congruence.
Qed.

(** X2.  The same loop, the lights that are not on: when each of them
    carries a [since] other than [0] and there is one, [maxLightOffSince]
    ends as the latest of them, and the lights that are on do not count. *)
Theorem latest_light_off rs (triggerLights : list string) :
  (forall x, x ∈ triggerLights -> isOn rs x = false ->
     exists t, lightSince rs x = Some t /\ t <> 0) ->
  (exists x, x ∈ triggerLights /\ isOn rs x = false) ->
  exists m,
    maxLightOffSince (scanLights rs triggerLights) = Some m
    /\ m <> 0
    /\ (exists x, x ∈ triggerLights /\ isOn rs x = false
                  /\ lightSince rs x = Some m)
    /\ forall x t, x ∈ triggerLights -> isOn rs x = false ->
         lightSince rs x = Some t -> t <= m.
Proof.
  intros Hl (x & Hx & Hoff).
  destruct (fold_scan_max rs triggerLights Hl (LightScan None None false))
    as (H1 & _ & H3 & H4); [left; reflexivity|].
  fold (scanLights rs triggerLights) in *.
  destruct (Hl x Hx Hoff) as (t & Ht & _).
  destruct (H3 x t Hx Hoff Ht) as (m & Hm & _).
  exists m. split; [exact Hm|]. split.
  { destruct H1 as [H1|(m0 & E0 & Hne)]; congruence. }
  split.
  - destruct (H4 m Hm) as [H|H]; [discriminate|exact H].
  - intros y ty Hy Hyoff Hty. destruct (H3 y ty Hy Hyoff Hty) as (m' & E' & Hle).
    congruence.
Qed.

(** ** Trailing *)


Lemma body_trailing_cases now room rs tr fan :
  (updateFan fanMethod now room rs tr fan).1.1 = tr
  \/ (updateFan fanMethod now room rs tr fan).1.1 = trailingStep now rs fan tr.
Proof.
  unfold updateFan.
  destruct (bool_decide _); [left; reflexivity|].
  destruct (keepRunning _ _ _); [left; reflexivity|].
  destruct (durationRaises _ _ _ _); [left; reflexivity|].
  right. reflexivity.
Qed.




(** X6.  Trailing is not ended while a trigger light is on (line 197 asks
    for [!anyLightOn]): a fan that trails still trails after the body,
    whatever the timestamps, the mode and the clock are. *)
Theorem trailing_kept_while_light_on now room rs tr fan x :
  x ∈ Cfg.triggerLights fan ->
  isOn rs x = true ->
  trailing tr (Cfg.id fan) = true ->
  trailing (updateFan fanMethod now room rs tr fan).1.1 (Cfg.id fan) = true.
Proof.
  intros Hx Hon Htr.
  destruct (body_trailing_cases now room rs tr fan) as [-> | ->]; [exact Htr|].
  assert (Hany : anyLightOn (scanLights rs (Cfg.triggerLights fan)) = true).
  { apply scanLights_anyLightOn. eauto. }
  destruct (trailingStep_cases now rs fan tr) as [(_ & ->) | [(Ha & _) | -> ]].
  - apply trailing_insert_true.
  - congruence.
  - exact Htr.
Qed.

(** X7.  Trailing is started by a light that is on and by nothing else
    (line 193 is the only place that sets it): for a fan that does not trail
    and none of whose trigger lights is on, among them a fan without trigger
    lights, the body leaves [fansTrailing] as it is. *)
Theorem trailing_needs_light_on now room rs tr fan :
  (forall x, x ∈ Cfg.triggerLights fan -> isOn rs x = false) ->
  trailing tr (Cfg.id fan) = false ->
  (updateFan fanMethod now room rs tr fan).1.1 = tr.
Proof.
  intros Hl Htr.
  destruct (body_trailing_cases now room rs tr fan) as [-> | ->]; [reflexivity|].
  destruct (trailingStep_cases now rs fan tr) as [(Ha & _) | [(_ & Ht & _) | -> ]].
  - rewrite (scanLights_none_on _ _ Hl) in Ha. discriminate.
  - congruence.
  - reflexivity.
Qed.

(** ** The humidity block *)

Lemma speedRank_max : speedRank "max" = 2.
Proof. reflexivity. Qed.

Lemma speedRank_min : speedRank "min" = 1.
Proof. reflexivity. Qed.

Lemma speedRank_off : speedRank "off" = 0.
Proof. reflexivity. Qed.

Ltac split_humidity :=
  repeat match goal with
  | |- context [?a <? ?b] => destruct (a <? b) eqn:?
  | |- context [bool_decide ?P] => destruct (bool_decide P) eqn:?
  end;
  simpl; rewrite ?speedRank_max, ?speedRank_min, ?speedRank_off;
  to_props.

(** X8.  Lines 140-159: more humidity never asks for less.  For the same
    recorded speed and thresholds, a reading [h2] other than [0] that is at
    least [h1] gives a speed at least as high as [h1] gives. *)
Theorem humidity_monotone h1 h2 speed minT maxT :
  h1 <= h2 ->
  h2 <> 0 ->
  speedRank (humiditySpeed (Some h1) speed minT maxT)
  <= speedRank (humiditySpeed (Some h2) speed minT maxT).
Proof.
  intros Hle Hnz. unfold humiditySpeed.
  rewrite (proj2 (truthy_Some h2) Hnz).
  destruct (truthy (Some h1)); simpl.
  - split_humidity; try lia; try congruence.
  - split_humidity; try lia; try congruence.
Qed.

(** X9.  Lines 144-158: the recorded speed only holds.  The block gives the
    recorded speed back or what it gives for a fan that is off, and never
    less than the latter. *)
Theorem hysteresis_only_holds humidity speed minT maxT :
  (humiditySpeed humidity speed minT maxT = speed
   \/ humiditySpeed humidity speed minT maxT
      = humiditySpeed humidity "off" minT maxT)
  /\ speedRank (humiditySpeed humidity "off" minT maxT)
     <= speedRank (humiditySpeed humidity speed minT maxT).
Proof.
  unfold humiditySpeed. destruct (truthy humidity); [|split; [right|]; reflexivity].
  simpl.
  destruct (maxT <? default 0 humidity); [split; [right|]; reflexivity|].
  destruct (bool_decide (speed = "max")) eqn:E1; simpl.
  - apply bool_decide_eq_true in E1.
    destruct (maxT - 10 <? default 0 humidity); simpl.
    + split; [left; congruence|].
      destruct (minT <? default 0 humidity);
        rewrite ?speedRank_max, ?speedRank_min, ?speedRank_off; lia.
    + destruct (minT <? default 0 humidity); [split; [right|]; reflexivity|].
      rewrite (bool_decide_eq_false_2 (speed = "min")) by (subst; discriminate).
      simpl. split; [right|]; reflexivity.
  - destruct (minT <? default 0 humidity); [split; [right|]; reflexivity|].
    destruct (bool_decide (speed = "min")) eqn:E2; simpl.
    + apply bool_decide_eq_true in E2.
      destruct (minT - 5 <? default 0 humidity).
      * split; [left; congruence|].
        rewrite ?speedRank_max, ?speedRank_min, ?speedRank_off; lia.
      * split; [right|]; reflexivity.
    + split; [right|]; reflexivity.
Qed.

(** ** What a pass emits *)

Lemma humiditySpeed_three humidity speed minT maxT :
  humiditySpeed humidity speed minT maxT = "off"
  \/ humiditySpeed humidity speed minT maxT = "min"
  \/ humiditySpeed humidity speed minT maxT = "max".
Proof.
  unfold humiditySpeed. repeat case_match; auto.
Qed.

Lemma newSpeedOf_three rs fan tr :
  newSpeedOf rs fan tr = "off" \/ newSpeedOf rs fan tr = "min"
  \/ newSpeedOf rs fan tr = "max".
Proof.
  unfold newSpeedOf. destruct (trailing tr (Cfg.id fan)); [auto|].
  apply humiditySpeed_three.
Qed.

(** The effects of the body, by the four ways through it. *)
Lemma body_cases now room rs tr fan :
  (controlOf rs fan = "manual"
   /\ updateFan fanMethod now room rs tr fan
      = (tr, [Actuate (Cfg.id fan) (speedOf rs fan)],
         call fanMethod (speedOf rs fan)))
  \/ (held now rs fan = true
      /\ updateFan fanMethod now room rs tr fan = (tr, [], Next))
  \/ (automatic now rs fan = true
      /\ durationRaises now rs fan tr = true
      /\ updateFan fanMethod now room rs tr fan = (tr, [], Raised))
  \/ (automatic now rs fan = true
      /\ durationRaises now rs fan tr = false
      /\ exists newSpeed,
          (newSpeed = "off" \/ newSpeed = "min" \/ newSpeed = "max")
          /\ updateFan fanMethod now room rs tr fan
             = (trailingStep now rs fan tr,
                ((if bool_decide (speedOf rs fan = newSpeed) then []
                  else [Publish (Cfg.roomId room) (Cfg.id fan) newSpeed])
                 ++ [Actuate (Cfg.id fan) newSpeed])%list,
                call fanMethod newSpeed)).
Proof.
  unfold updateFan, held, automatic.
  destruct (bool_decide (controlOf rs fan = "manual")) eqn:E; simpl.
  - left. apply bool_decide_eq_true in E. auto.
  - destruct (keepRunning now rs fan); simpl.
    + right. left. auto.
    + destruct (durationRaises now rs fan tr).
      * right. right. left. auto.
      * right. right. right. split; [reflexivity|]. split; [reflexivity|].
        exists (newSpeedOf rs fan (trailingStep now rs fan tr)).
        split; [apply newSpeedOf_three|reflexivity].
Qed.

(** X10.  Lines 124, 188, 200 and 219: what can fail in a pass is the call
    on the fan control and the debug lines that print a duration.  With a
    fan control that has the methods [off], [min] and [max], every fan in
    manual mode recorded with a speed the fan control has a method for, and
    every [since] of a trigger light a valid date, the pass runs over all
    fans ([Next]). *)
Theorem pass_completes now this :
  fanMethod "off" = true ->
  fanMethod "min" = true ->
  fanMethod "max" = true ->
  (forall fan, fan ∈ Cfg.fans (room this) ->
     controlOf (roomStatus this) fan = "manual" ->
     fanMethod (speedOf (roomStatus this) fan) = true) ->
  (forall fan x u, fan ∈ Cfg.fans (room this) -> x ∈ Cfg.triggerLights fan ->
     lightSince (roomStatus this) x = Some u -> validDate u = true) ->
  (updateFans fanMethod now this).2 = Next.
Proof.
  intros Hoff Hmin Hmax Hman Hval. unfold updateFans.
  generalize (fansTrailing this) as tr.
  induction (Cfg.fans (room this)) as [|fan rest IH]; intros tr; [reflexivity|].
  simpl.
  assert (Hrest : forall (tr1 : gmap string bool),
            (let '(tr2, e2, o2) :=
               updateFansLoop fanMethod now (room this) (roomStatus this) tr1 rest
             in (Make (room this) (roomStatus this) tr2, e2, o2)).2 = Next).
  { intros tr1. apply IH.
    - intros f Hf. apply Hman. right. exact Hf.
    - intros f x u Hf. apply Hval. right. exact Hf. }
  assert (Hnr : durationRaises now (roomStatus this) fan tr = false).
  { apply durationRaises_valid. intros x u Hx Hu.
    apply (Hval fan x u); [left|exact Hx|exact Hu]. }
  destruct (body_cases now (room this) (roomStatus this) tr fan)
    as [(Hc & ->)|[(_ & ->)|[(_ & Hr & _)|(_ & _ & ns & Hns & ->)]]].
  - unfold call. rewrite (Hman fan) by (left || exact Hc).
    specialize (Hrest tr).
    destruct (updateFansLoop _ _ _ _ _ _) as [[tr2 e2] o2]. exact Hrest.
  - specialize (Hrest tr).
    destruct (updateFansLoop _ _ _ _ _ _) as [[tr2 e2] o2]. exact Hrest.
  - congruence.
  - assert (Hcall : call fanMethod ns = Next).
    { unfold call. destruct Hns as [->|[->| ->]]; rewrite ?Hoff, ?Hmin, ?Hmax;
        reflexivity. }
    rewrite Hcall. specialize (Hrest (trailingStep now (roomStatus this) fan tr)).
    destruct (updateFansLoop _ _ _ _ _ _) as [[tr2 e2] o2]. exact Hrest.
Qed.

Lemma updateFansLoop_app now room rs (pre post : list Cfg.Fan) tr :
  updateFansLoop fanMethod now room rs tr (pre ++ post) =
    match updateFansLoop fanMethod now room rs tr pre with
    | (tr1, e1, Raised) => (tr1, e1, Raised)
    | (tr1, e1, Next) =>
      match updateFansLoop fanMethod now room rs tr1 post with
      | (tr2, e2, o) => (tr2, (e1 ++ e2)%list, o)
      end
    end.
Proof.
  revert tr. induction pre as [|fan pre IH]; intros tr; simpl.
  - destruct (updateFansLoop fanMethod now room rs tr post) as [[tr2 e2] o].
    reflexivity.
  - destruct (updateFan fanMethod now room rs tr fan) as [[tr1 e1] [|]];
      [|reflexivity].
    rewrite IH.
    destruct (updateFansLoop fanMethod now room rs tr1 pre) as [[tr2 e2] [|]];
      [|reflexivity].
    destruct (updateFansLoop fanMethod now room rs tr2 post) as [[tr3 e3] o].
    rewrite app_assoc. reflexivity.
Qed.

(** X11.  Line 124: a fan in manual mode recorded with a speed the fan
    control has no method for ends the pass.  The fans before it are served,
    the call is made and raises, and the fans after it are not looked at: no
    effect for them and [fansTrailing] as the fans before left it. *)
Theorem bad_manual_speed_ends_pass now this pre fan post tr1 e1 :
  Cfg.fans (room this) = (pre ++ fan :: post)%list ->
  updateFansLoop fanMethod now (room this) (roomStatus this) (fansTrailing this) pre
    = (tr1, e1, Next) ->
  controlOf (roomStatus this) fan = "manual" ->
  fanMethod (speedOf (roomStatus this) fan) = false ->
  updateFans fanMethod now this =
    (Make (room this) (roomStatus this) tr1,
     (e1 ++ [Actuate (Cfg.id fan) (speedOf (roomStatus this) fan)])%list,
     Raised).
Proof.
  intros Hfans Hpre Hc Hbad. unfold updateFans.
  rewrite Hfans, updateFansLoop_app, Hpre. simpl.
  unfold updateFan. rewrite (bool_decide_eq_true_2 _ Hc).
  unfold call. rewrite Hbad. reflexivity.
Qed.

(** X12.  Lines 108, 216 and 219: every effect of a pass is about a fan of
    [room.fans]; a publish is for the room of the instance, carries one of
    the three speeds, and is made for a fan that is not in manual mode and
    whose recorded speed is another one. *)
Theorem effects_are_about_configured_fans now this e :
  e ∈ (updateFans fanMethod now this).1.2 ->
  exists fan,
    fan ∈ Cfg.fans (room this)
    /\ effectFan e = Cfg.id fan
    /\ (isPublish e = true ->
        e = Publish (Cfg.roomId (room this)) (Cfg.id fan) (effectSpeed e)
        /\ (effectSpeed e = "off" \/ effectSpeed e = "min" \/ effectSpeed e = "max")
        /\ controlOf (roomStatus this) fan <> "manual"
        /\ speedOf (roomStatus this) fan <> effectSpeed e).
Proof.
  intros He.
  assert (Ho : exists fan tr0,
            fan ∈ Cfg.fans (room this)
            /\ e ∈ (updateFan fanMethod now (room this) (roomStatus this) tr0 fan).1.2).
  { apply (updateFansLoop_effect_origin fanMethod now (room this) (roomStatus this)
             (Cfg.fans (room this)) e (fansTrailing this)).
    unfold updateFans in He.
    destruct (updateFansLoop _ _ _ _ _ _) as [[tr' es] o]. exact He. }
  destruct Ho as (fan & tr0 & Hfan & Hin).
  exists fan. split; [exact Hfan|].
  destruct (body_cases now (room this) (roomStatus this) tr0 fan)
    as [(Hc & E)|[(_ & E)|[(_ & _ & E)|(Hauto & _ & ns & Hns & E)]]];
    rewrite E in Hin; simpl in Hin.
  - apply list_elem_of_singleton in Hin. subst e. split; [reflexivity|].
    intros Hp. discriminate Hp.
  - apply elem_of_nil in Hin. contradiction.
  - apply elem_of_nil in Hin. contradiction.
  - assert (Hctl : controlOf (roomStatus this) fan <> "manual").
    { unfold automatic in Hauto. to_props. assumption. }
    destruct (bool_decide (speedOf (roomStatus this) fan = ns)) eqn:Es;
      simpl in Hin.
    + apply list_elem_of_singleton in Hin. subst e. split; [reflexivity|].
      intros Hp. discriminate Hp.
    + apply bool_decide_eq_false in Es.
      apply elem_of_cons in Hin. destruct Hin as [->|Hin].
      * split; [reflexivity|]. intros _. simpl. auto.
      * apply list_elem_of_singleton in Hin. subst e. split; [reflexivity|].
        intros Hp. discriminate Hp.
Qed.

(** X13.  Lines 193 and 205: a pass writes [fansTrailing] under the ids of
    [room.fans] only; an entry under another key is left as it is. *)
Theorem pass_keeps_other_trailing now this (j : string) :
  j ∉ fanIds (room this) ->
  fansTrailing (updateFans fanMethod now this).1.1 !! j = fansTrailing this !! j.
Proof.
  intros Hj. unfold updateFans.
  pose proof (updateFansLoop_frame fanMethod now (room this) (roomStatus this)
                (Cfg.fans (room this)) j Hj (fansTrailing this)) as H.
  destruct (updateFansLoop _ _ _ _ _ _) as [[tr' es] o]. exact H.
Qed.

(** X14.  Lines 121 and 130: a recorded speed without [since] counts as set
    now.  A fan in automatic mode whose recorded speed is not ['off'] and
    has no [since], with a [minRunTime] that is positive and below [1e21], is
    passed over at every clock reading: no publish, no call, [fansTrailing]
    as it was. *)
Theorem speed_without_since_is_held now room rs tr fan :
  controlOf rs fan <> "manual" ->
  speedOf rs fan <> "off" ->
  Status.fans rs !! Cfg.id fan ≫= (fun f => since (Status.speed f)) = None ->
  0 < minRunTimeOf rs fan ->
  minRunTimeOf rs fan < exponentForm ->
  updateFan fanMethod now room rs tr fan = (tr, [], Next).
Proof.
  intros Hc Hs Hsince Hrun Hb. unfold updateFan.
  rewrite (bool_decide_eq_false_2 _ Hc).
  assert (Hk : keepRunning now rs fan = true).
  { unfold keepRunning, elapsedOf.
    rewrite Hsince. simpl. rewrite (bool_decide_eq_false_2 _ Hs). simpl.
    apply Z.ltb_lt. rewrite (ms_max _ Hb). lia. }
  rewrite Hk. reflexivity.
Qed.

(** X15.  Lines 215-217 and 259-263: the pass publishes the speed it chose
    and the mutator [speed] records it.  For a fan whose id [_.set] stores
    under, with every [since] of its trigger lights a valid date: once the
    record holds that speed, the body run again at the same clock reading,
    over the [fansTrailing] the first run left, publishes nothing and leaves
    [fansTrailing] as it is: it is held by the minimum run time, or it makes
    the one call for the recorded speed. *)
Theorem speed_feedback_settles now room rs tr fan (since' : option Z) :
  automatic now rs fan = true ->
  guardedKey (Cfg.id fan) = false ->
  (forall x u, x ∈ Cfg.triggerLights fan -> lightSince rs x = Some u ->
     validDate u = true) ->
  let tr' := trailingStep now rs fan tr in
  let newSpeed := newSpeedOf rs fan tr' in
  let rs' := setFan (Cfg.id fan) (storeSpeed (Entry (Some newSpeed) since')) rs in
  updateFan fanMethod now room rs' tr' fan =
    if keepRunning now rs' fan then (tr', [], Next)
    else (tr', [Actuate (Cfg.id fan) newSpeed], call fanMethod newSpeed).
Proof.
  intros Hauto Hkey Hval tr' newSpeed rs'.
  assert (Hctl : controlOf rs fan <> "manual").
  { unfold automatic in Hauto. to_props. assumption. }
  destruct (Status.fans rs !! Cfg.id fan) as [f|] eqn:Ef.
  2:{ exfalso. apply Hctl. unfold controlOf, getFanValue. rewrite Ef. reflexivity. }
  assert (Ef' : Status.fans rs' !! Cfg.id fan
                = Some (storeSpeed (Entry (Some newSpeed) since') f)).
  { unfold rs', setFan. rewrite Hkey. simpl.
    rewrite lookup_insert_eq, Ef. reflexivity. }
  assert (Hlights : Status.lights rs' = Status.lights rs).
  { unfold rs', setFan. rewrite Hkey. reflexivity. }
  assert (Hhum : humidityOf rs' = humidityOf rs).
  { unfold rs', setFan. rewrite Hkey. reflexivity. }
  assert (Hsp : speedOf rs' fan = newSpeed).
  { unfold speedOf, getFanValue. rewrite Ef'. reflexivity. }
  assert (Hctl' : controlOf rs' fan = controlOf rs fan).
  { unfold controlOf, getFanValue. rewrite Ef', Ef. reflexivity. }
  assert (Hnr : durationRaises now rs' fan tr' = false).
  { apply durationRaises_valid. intros x u Hx Hu. apply (Hval x u Hx).
    unfold lightSince in *. rewrite <- Hlights. exact Hu. }
  assert (Hstep : trailingStep now rs' fan tr' = tr').
  { assert (E : trailingStep now rs' fan tr' = trailingStep now rs fan tr').
    { unfold trailingStep, trailingTimeOf, lightTimeoutOf, getFanValue.
      rewrite Ef', Ef, (scanLights_lights rs' rs _ Hlights). reflexivity. }
    rewrite E. apply map_eq. intros j.
    destruct (decide (j = Cfg.id fan)) as [->|Hne].
    - apply (trailingStep_stable now rs fan tr tr'). reflexivity.
    - apply trailingStep_frame, Hne. }
  assert (Hns : newSpeedOf rs' fan tr' = newSpeed).
  { unfold newSpeedOf at 1. rewrite Hsp, Hhum.
    destruct (trailing tr' (Cfg.id fan)) eqn:Et;
      unfold newSpeed, newSpeedOf; rewrite Et; [reflexivity|].
    unfold minHumidityThresholdOf, maxHumidityThresholdOf, getFanValue.
    rewrite Ef', Ef. simpl. apply humiditySpeed_idempotent. }
  unfold updateFan. rewrite Hctl'.
  rewrite (bool_decide_eq_false_2 _ Hctl).
  destruct (keepRunning now rs' fan); [reflexivity|].
  rewrite Hnr, Hstep, Hns, Hsp. rewrite bool_decide_eq_true_2 by reflexivity.
  reflexivity.
Qed.

(** ** The mutators and the constants of the pass *)

(** X16.  Lines 112-121 and 223-263: what a fan mutator stores is what the
    next pass resolves, for a fan id that [_.set] stores under.  The stored
    [value] replaces the constant of its name, a payload without [value]
    brings the default back (the configuration's, ['manual'], ['off']), the
    [since] of the speed payload becomes [speedSince] (the clock reading
    when absent), and the other constants of the fan and all constants of
    the fans with another id stay as they are.  Under the ids [__proto__],
    [constructor] and [prototype] nothing is stored. *)
Theorem override_round_trip now rs fan :
  let id := Cfg.id fan in
  let c := controlOf rs fan in
  let s := speedOf rs fan in
  let ss := speedSinceOf now rs fan in
  let a := minHumidityThresholdOf rs fan in
  let b := maxHumidityThresholdOf rs fan in
  let r := minRunTimeOf rs fan in
  let l := lightTimeoutOf rs fan in
  let t := trailingTimeOf rs fan in
  (guardedKey id = false ->
   (forall d, resolved now (setFan id (storeControl d) rs) fan
              = (default "manual" (value d), s, ss, a, b, r, l, t))
   /\ (forall d, resolved now (setFan id (storeSpeed d) rs) fan
                 = (c, default "off" (value d), default now (since d), a, b, r, l, t))
   /\ (forall d, resolved now (setFan id (storeMinHumidityThreshold d) rs) fan
                 = (c, s, ss, default (Cfg.minHumidityThreshold fan) (value d),
                    b, r, l, t))
   /\ (forall d, resolved now (setFan id (storeMaxHumidityThreshold d) rs) fan
                 = (c, s, ss, a,
                    default (Cfg.maxHumidityThreshold fan) (value d), r, l, t))
   /\ (forall d, resolved now (setFan id (storeMinRunTime d) rs) fan
                 = (c, s, ss, a, b, default (Cfg.minRunTime fan) (value d), l, t))
   /\ (forall d, resolved now (setFan id (storeLightTimeout d) rs) fan
                 = (c, s, ss, a, b, r, default (Cfg.lightTimeout fan) (value d), t))
   /\ (forall d, resolved now (setFan id (storeTrailingTime d) rs) fan
                 = (c, s, ss, a, b, r, l, default (Cfg.trailingTime fan) (value d))))
  /\ (forall fan' store, Cfg.id fan' <> id ->
        resolved now (setFan id store rs) fan' = resolved now rs fan')
  /\ (guardedKey id = true -> forall store, setFan id store rs = rs).
Proof.
  intros id c s ss a b r l t. subst id c s ss a b r l t.
  split; [|split].
  - intros Hkey.
    unfold resolved, controlOf, speedOf, speedSinceOf, minHumidityThresholdOf,
      maxHumidityThresholdOf, minRunTimeOf, lightTimeoutOf, trailingTimeOf,
      getFanValue, getSpeedSince, setFan. rewrite Hkey. simpl.
    repeat (split; [intros d; rewrite !lookup_insert_eq;
                    destruct (Status.fans rs !! Cfg.id fan); reflexivity|]).
    intros d. rewrite !lookup_insert_eq.
    destruct (Status.fans rs !! Cfg.id fan); reflexivity.
  - intros fan' store Hne.
    unfold resolved, controlOf, speedOf, speedSinceOf, minHumidityThresholdOf,
      maxHumidityThresholdOf, minRunTimeOf, lightTimeoutOf, trailingTimeOf,
      getFanValue, getSpeedSince, setFan.
    destruct (guardedKey (Cfg.id fan)); [reflexivity|]. simpl.
    rewrite !lookup_insert_ne by congruence. reflexivity.
  - intros Hkey store. unfold setFan. rewrite Hkey. reflexivity.
Qed.

(** ** The constructor *)

Lemma initial_fans_lookup (l : list Cfg.Fan) (m : gmap string Status.Fan) fan :
  fan ∈ l ->
  fold_left (fun m fan => <[Cfg.id fan := initialFan]> m) l m !! Cfg.id fan
  = Some initialFan.
Proof.
  assert (Hkeep : forall (l : list Cfg.Fan) (m : gmap string Status.Fan) k,
            m !! k = Some initialFan ->
            fold_left (fun m fan => <[Cfg.id fan := initialFan]> m) l m !! k
            = Some initialFan).
  { clear. induction l as [|x l IH]; intros m k Hm; [exact Hm|].
    simpl. apply IH. destruct (decide (Cfg.id x = k)) as [->|Hne].
    - apply lookup_insert_eq.
    - rewrite lookup_insert_ne by exact Hne. exact Hm. }
  revert m. induction l as [|x l IH]; intros m Hin.
  - apply elem_of_nil in Hin. contradiction.
  - simpl. apply elem_of_cons in Hin. destruct Hin as [->|Hin].
    + apply Hkeep, lookup_insert_eq.
    + apply IH, Hin.
Qed.

Lemma manual_off_loop now room rs (l : list Cfg.Fan) :
  fanMethod "off" = true ->
  (forall fan, fan ∈ l -> controlOf rs fan = "manual" /\ speedOf rs fan = "off") ->
  forall tr,
    updateFansLoop fanMethod now room rs tr l
    = (tr, map (fun fan => Actuate (Cfg.id fan) "off") l, Next).
Proof.
  intros Hoff. induction l as [|fan l IH]; intros Hl tr; [reflexivity|].
  simpl. destruct (Hl fan) as (Hc & Hs); [left|].
  unfold updateFan. rewrite Hc, Hs.
  rewrite bool_decide_eq_true_2 by reflexivity.
  unfold call. rewrite Hoff.
  rewrite IH by (intros f Hf; apply Hl; right; exact Hf).
  reflexivity.
Qed.

(** X17.  Lines 53-60 and 123-127: a new instance has every fan of
    [room.fans] in manual mode and off, so with a fan control that has the
    method [off] the first pass calls [off] on each fan, in the order of
    [room.fans], publishes nothing and leaves the instance as the
    constructor built it, whatever the clock reads. *)
Theorem first_pass_after_construction now (cfg : Cfg.Room) :
  fanMethod "off" = true ->
  (forall fan, fan ∈ Cfg.fans cfg ->
     resolved now (roomStatus (constructor cfg)) fan
     = ("manual", "off", now,
        Cfg.minHumidityThreshold fan, Cfg.maxHumidityThreshold fan,
        Cfg.minRunTime fan, Cfg.lightTimeout fan, Cfg.trailingTime fan))
  /\ updateFans fanMethod now (constructor cfg) =
       (constructor cfg,
        map (fun fan => Actuate (Cfg.id fan) "off") (Cfg.fans cfg),
        Next).
Proof.
  intros Hoff.
  assert (Hres : forall fan, fan ∈ Cfg.fans cfg ->
            resolved now (roomStatus (constructor cfg)) fan
            = ("manual", "off", now,
               Cfg.minHumidityThreshold fan, Cfg.maxHumidityThreshold fan,
               Cfg.minRunTime fan, Cfg.lightTimeout fan, Cfg.trailingTime fan)).
  { intros fan Hfan.
    unfold resolved, controlOf, speedOf, speedSinceOf, minHumidityThresholdOf,
      maxHumidityThresholdOf, minRunTimeOf, lightTimeoutOf, trailingTimeOf,
      getFanValue, getSpeedSince, constructor. simpl.
    rewrite (initial_fans_lookup _ _ _ Hfan). reflexivity. }
  split; [exact Hres|].
  unfold updateFans.
  rewrite (manual_off_loop now (room (constructor cfg))
             (roomStatus (constructor cfg)) (Cfg.fans (room (constructor cfg)))
             Hoff).
  - reflexivity.
  - intros fan Hfan. specialize (Hres fan Hfan). unfold resolved in Hres.
    split; congruence.
Qed.

(** ** One call per fan *)

Lemma calls_of_loop now room rs (l : list Cfg.Fan) :
  forall tr,
    (updateFansLoop fanMethod now room rs tr l).2 = Next ->
    map effectFan
      (List.filter (fun e => negb (isPublish e))
         (updateFansLoop fanMethod now room rs tr l).1.2)
    = map Cfg.id (List.filter (fun fan => negb (held now rs fan)) l).
Proof.
  induction l as [|fan l IH]; intros tr; [reflexivity|].
  simpl.
  destruct (body_cases now room rs tr fan)
    as [(Hc & E)|[(Hheld & E)|[(_ & _ & E)|(Hauto & _ & ns & _ & E)]]];
    rewrite E.
  - assert (Hh : held now rs fan = false).
    { unfold held. rewrite (bool_decide_eq_true_2 _ Hc). reflexivity. }
    rewrite Hh. simpl.
    destruct (call fanMethod (speedOf rs fan)); [|discriminate].
    specialize (IH tr).
    destruct (updateFansLoop fanMethod now room rs tr l) as [[tr2 e2] o2].
    simpl in *. intros Ho. rewrite (IH Ho). reflexivity.
  - rewrite Hheld. simpl. specialize (IH tr).
    destruct (updateFansLoop fanMethod now room rs tr l) as [[tr2 e2] o2].
    simpl in *. exact IH.
  - simpl. discriminate.
  - assert (Hh : held now rs fan = false).
    { unfold held. unfold automatic in Hauto. to_props.
      rewrite (bool_decide_eq_false_2 _ H), H0. reflexivity. }
    rewrite Hh. simpl.
    destruct (call fanMethod ns); [|discriminate].
    specialize (IH (trailingStep now rs fan tr)).
    destruct (updateFansLoop fanMethod now room rs _ l) as [[tr2 e2] o2].
    simpl in *. intros Ho.
    rewrite List.filter_app, map_app, (IH Ho).
    destruct (bool_decide (speedOf rs fan = ns)); reflexivity.
Qed.

(** X18.  Line 219 and the two [continue]s: in a pass that runs over all
    fans, the calls made on the fan controls are one for each fan that is
    not held by the minimum run time, in the order of [room.fans], whether
    its speed changed or not. *)
Theorem one_call_per_fan_not_held now this :
  (updateFans fanMethod now this).2 = Next ->
  map effectFan
    (List.filter (fun e => negb (isPublish e)) (updateFans fanMethod now this).1.2)
  = map Cfg.id
      (List.filter (fun fan => negb (held now (roomStatus this) fan))
         (Cfg.fans (room this))).
Proof.
  unfold updateFans.
  pose proof (calls_of_loop now (room this) (roomStatus this)
                (Cfg.fans (room this)) (fansTrailing this)) as H.
  destruct (updateFansLoop _ _ _ _ _ _) as [[tr' es] o]. exact H.
Qed.

(** ** The fans of a room do not interfere *)

Lemma trailingStep_local now rs fan (tr1 tr2 : gmap string bool) :
  tr1 !! Cfg.id fan = tr2 !! Cfg.id fan ->
  trailingStep now rs fan tr1 !! Cfg.id fan
  = trailingStep now rs fan tr2 !! Cfg.id fan.
Proof.
  intros H.
  pose proof (trailing_local tr1 tr2 _ H) as Ht.
  unfold trailingStep, lightsOnStep, lightsOffStep.
  set (sc := scanLights rs (Cfg.triggerLights fan)).
  destruct (anyLightOn sc); cbn [andb negb].
  - destruct (truthy (minLightOnSince sc)); [|exact H].
    match goal with
    | |- context [lessThan ?a ?b] => destruct (lessThan a b)
    end; [|exact H].
    rewrite !lookup_insert_eq. reflexivity.
  - rewrite Ht. destruct (trailing tr2 (Cfg.id fan)); cbn [andb]; [|exact H].
    destruct (truthy (maxLightOffSince sc)); [|exact H].
    match goal with
    | |- context [lessThan ?a ?b] => destruct (lessThan a b)
    end; [|exact H].
    rewrite !lookup_insert_eq. reflexivity.
Qed.

Lemma updateFan_local now room rs (tr1 tr2 : gmap string bool) fan :
  tr1 !! Cfg.id fan = tr2 !! Cfg.id fan ->
  (updateFan fanMethod now room rs tr1 fan).1.2
    = (updateFan fanMethod now room rs tr2 fan).1.2
  /\ (updateFan fanMethod now room rs tr1 fan).2
     = (updateFan fanMethod now room rs tr2 fan).2
  /\ (updateFan fanMethod now room rs tr1 fan).1.1 !! Cfg.id fan
     = (updateFan fanMethod now room rs tr2 fan).1.1 !! Cfg.id fan.
Proof.
  intros H. unfold updateFan.
  destruct (bool_decide _); [auto|].
  destruct (keepRunning _ _ _); [auto|].
  rewrite (durationRaises_local now rs fan tr1 tr2 H).
  destruct (durationRaises now rs fan tr2); [auto|].
  simpl. pose proof (trailingStep_local now rs fan tr1 tr2 H) as Hs.
  assert (Hn : newSpeedOf rs fan (trailingStep now rs fan tr1)
               = newSpeedOf rs fan (trailingStep now rs fan tr2)).
  { unfold newSpeedOf. rewrite (trailing_local _ _ _ Hs). reflexivity. }
  rewrite Hn. auto.
Qed.

Lemma independent_loop now room rs (tr0 : gmap string bool) (l : list Cfg.Fan) :
  NoDup (map Cfg.id l) ->
  forall tr : gmap string bool,
    (forall fan, fan ∈ l -> tr !! Cfg.id fan = tr0 !! Cfg.id fan) ->
    (updateFansLoop fanMethod now room rs tr l).2 = Next ->
    (updateFansLoop fanMethod now room rs tr l).1.2
      = concat (map (fun fan => (updateFan fanMethod now room rs tr0 fan).1.2) l)
    /\ forall fan, fan ∈ l ->
         (updateFansLoop fanMethod now room rs tr l).1.1 !! Cfg.id fan
         = (updateFan fanMethod now room rs tr0 fan).1.1 !! Cfg.id fan.
Proof.
  induction l as [|fan l IH]; intros Hnd tr Htr; simpl.
  - intros _. split; [reflexivity|]. intros f Hf.
    apply elem_of_nil in Hf. contradiction.
  - simpl in Hnd. apply NoDup_cons in Hnd. destruct Hnd as [Hfresh Hnd].
    destruct (updateFan_local now room rs tr tr0 fan) as (He & Ho & Hk);
      [apply Htr; left|].
    pose proof (fun j => updateFan_frame fanMethod now room rs tr fan j) as Hfr.
    pose proof (updateFansLoop_frame fanMethod now room rs l (Cfg.id fan) Hfresh)
      as Hlf.
    destruct (updateFan fanMethod now room rs tr fan) as [[t1 e1] o1].
    simpl in *. destruct o1; [|discriminate].
    specialize (IH Hnd t1). specialize (Hlf t1).
    destruct (updateFansLoop fanMethod now room rs t1 l) as [[t2 e2] o2].
    simpl in *. intros Hnext.
    destruct IH as (IHe & IHk); [|exact Hnext|].
    { intros f Hf. rewrite Hfr.
      - apply Htr. right. exact Hf.
      - intros E. apply Hfresh. rewrite <- E. apply list_elem_of_fmap. eauto. }
    split; [rewrite He, IHe; reflexivity|].
    intros f Hf. apply elem_of_cons in Hf. destruct Hf as [->|Hf].
    + rewrite Hlf. exact Hk.
    + apply IHk, Hf.
Qed.

(** X21.  Lines 108-220: with distinct fan ids the fans of a room are served
    independently.  In a pass that runs over all fans, each body sees the
    [fansTrailing] entry the pass started with: the effects of the pass are
    the effects of the bodies run one by one on the initial table, in the
    order of [room.fans], and the entry of each fan ends as its own body
    leaves it. *)
Theorem fans_are_independent now this :
  NoDup (fanIds (room this)) ->
  (updateFans fanMethod now this).2 = Next ->
  (updateFans fanMethod now this).1.2
    = concat
        (map (fun fan =>
                (updateFan fanMethod now (room this) (roomStatus this)
                   (fansTrailing this) fan).1.2)
           (Cfg.fans (room this)))
  /\ forall fan, fan ∈ Cfg.fans (room this) ->
       fansTrailing (updateFans fanMethod now this).1.1 !! Cfg.id fan
       = (updateFan fanMethod now (room this) (roomStatus this)
            (fansTrailing this) fan).1.1 !! Cfg.id fan.
Proof.
  intros Hnd. unfold updateFans.
  pose proof (independent_loop now (room this) (roomStatus this)
                (fansTrailing this) (Cfg.fans (room this)) Hnd
                (fansTrailing this) (fun _ _ => eq_refl)) as H.
  destruct (updateFansLoop _ _ _ _ _ _) as [[tr' es] o]. exact H.
Qed.

(** ** The stores compose *)

(** X22.  Lines 223-263: [_.set] on the status.  A second payload for the
    same member of the same fan replaces the first, and stores under two
    different fan ids can be swapped. *)
Theorem stores_compose rs (id : string) :
  (forall d1 d2,
     setFan id (storeControl d2) (setFan id (storeControl d1) rs)
     = setFan id (storeControl d2) rs)
  /\ (forall d1 d2,
        setFan id (storeSpeed d2) (setFan id (storeSpeed d1) rs)
        = setFan id (storeSpeed d2) rs)
  /\ (forall d1 d2,
        setFan id (storeMinHumidityThreshold d2)
          (setFan id (storeMinHumidityThreshold d1) rs)
        = setFan id (storeMinHumidityThreshold d2) rs)
  /\ (forall d1 d2,
        setFan id (storeMaxHumidityThreshold d2)
          (setFan id (storeMaxHumidityThreshold d1) rs)
        = setFan id (storeMaxHumidityThreshold d2) rs)
  /\ (forall d1 d2,
        setFan id (storeMinRunTime d2) (setFan id (storeMinRunTime d1) rs)
        = setFan id (storeMinRunTime d2) rs)
  /\ (forall d1 d2,
        setFan id (storeLightTimeout d2) (setFan id (storeLightTimeout d1) rs)
        = setFan id (storeLightTimeout d2) rs)
  /\ (forall d1 d2,
        setFan id (storeTrailingTime d2) (setFan id (storeTrailingTime d1) rs)
        = setFan id (storeTrailingTime d2) rs)
  /\ (forall id' store store',
        id <> id' ->
        setFan id store (setFan id' store' rs)
        = setFan id' store' (setFan id store rs)).
Proof.
  unfold setFan. destruct (guardedKey id) eqn:Hk.
  - repeat (split; [reflexivity|]). intros id' store store' Hne.
    destruct (guardedKey id'); reflexivity.
  - repeat (split; [intros d1 d2; simpl;
                    rewrite lookup_insert_eq, insert_insert_eq; reflexivity|]).
    intros id' store store' Hne.
    destruct (guardedKey id'); [reflexivity|]. simpl.
    rewrite !lookup_insert_ne by congruence.
    rewrite (insert_insert_ne _ id id') by exact Hne. reflexivity.
Qed.

End Coverage.

(** ** The further properties at concrete rooms *)

Ltac the_light :=
  let y := fresh "y" in
  let Hy := fresh "Hy" in
  intros y Hy; apply list_elem_of_singleton in Hy; subst y.

Lemma earliest_light_on_witness :
  (exists x, x ∈ Cfg.triggerLights bathFan /\ isOn (roomStatus lightOn) x = true)
  /\ anyLightOn (scanLights (roomStatus lightOn) (Cfg.triggerLights bathFan)) = true.
Proof.
  assert (H1 : forall x, x ∈ Cfg.triggerLights bathFan ->
             isOn (roomStatus lightOn) x = true ->
             exists t, lightSince (roomStatus lightOn) x = Some t /\ t <> 0).
  { the_light. intros _. exists 1000. split; [reflexivity|discriminate]. }
  assert (H2 : exists x, x ∈ Cfg.triggerLights bathFan
                         /\ isOn (roomStatus lightOn) x = true).
  { exists "light". split; [left|reflexivity]. }
  split; [exact H2|].
  exact (proj1 (earliest_light_on (roomStatus lightOn) (Cfg.triggerLights bathFan)
                  H1 H2)).
Defined.

Lemma latest_light_off_witness :
  (exists x, x ∈ Cfg.triggerLights bathFan /\ isOn (roomStatus lightOff) x = false)
  /\ exists m,
      maxLightOffSince (scanLights (roomStatus lightOff) (Cfg.triggerLights bathFan))
      = Some m
      /\ m <> 0
      /\ (exists x, x ∈ Cfg.triggerLights bathFan
                    /\ isOn (roomStatus lightOff) x = false
                    /\ lightSince (roomStatus lightOff) x = Some m)
      /\ forall x t, x ∈ Cfg.triggerLights bathFan ->
           isOn (roomStatus lightOff) x = false ->
           lightSince (roomStatus lightOff) x = Some t -> t <= m.
Proof.
  assert (H1 : forall x, x ∈ Cfg.triggerLights bathFan ->
             isOn (roomStatus lightOff) x = false ->
             exists t, lightSince (roomStatus lightOff) x = Some t /\ t <> 0).
  { the_light. intros _. exists 1000. split; [reflexivity|discriminate]. }
  assert (H2 : exists x, x ∈ Cfg.triggerLights bathFan
                         /\ isOn (roomStatus lightOff) x = false).
  { exists "light". split; [left|reflexivity]. }
  split; [exact H2|].
  exact (latest_light_off (roomStatus lightOff) (Cfg.triggerLights bathFan) H1 H2).
Defined.




Lemma trailing_kept_while_light_on_witness :
  isOn (roomStatus lightOn) "light" = true
  /\ trailing {["fan" := true]} (Cfg.id bathFan) = true
  /\ trailing (updateFan threeSpeeds 2000 bath (roomStatus lightOn)
                 {["fan" := true]} bathFan).1.1 (Cfg.id bathFan) = true.
Proof.
  assert (H1 : "light" ∈ Cfg.triggerLights bathFan) by left.
  assert (H2 : isOn (roomStatus lightOn) "light" = true) by reflexivity.
  assert (H3 : trailing {["fan" := true]} (Cfg.id bathFan) = true) by reflexivity.
  split; [exact H2|]. split; [exact H3|].
  exact (trailing_kept_while_light_on threeSpeeds 2000 bath (roomStatus lightOn)
           {["fan" := true]} bathFan "light" H1 H2 H3).
Defined.

Lemma trailing_needs_light_on_witness :
  trailing ∅ (Cfg.id bathFan) = false
  /\ (updateFan threeSpeeds 401000 bath (roomStatus lightOff) ∅ bathFan).1.1 = ∅.
Proof.
  assert (H1 : forall x, x ∈ Cfg.triggerLights bathFan ->
             isOn (roomStatus lightOff) x = false).
  { the_light. reflexivity. }
  assert (H2 : trailing ∅ (Cfg.id bathFan) = false) by reflexivity.
  split; [exact H2|].
  exact (trailing_needs_light_on threeSpeeds 401000 bath (roomStatus lightOff) ∅
           bathFan H1 H2).
Defined.

Lemma humidity_monotone_witness :
  50 <= 85
  /\ speedRank (humiditySpeed (Some 50) "off" 60 80)
     <= speedRank (humiditySpeed (Some 85) "off" 60 80).
Proof.
  assert (H1 : 50 <= 85) by discriminate.
  assert (H2 : 85 <> 0) by discriminate.
  split; [exact H1|].
  exact (humidity_monotone 50 85 "off" 60 80 H1 H2).
Defined.

Lemma pass_completes_witness :
  threeSpeeds "off" = true
  /\ threeSpeeds "min" = true
  /\ threeSpeeds "max" = true
  /\ (updateFans threeSpeeds 701000 lightOn).2 = Next.
Proof.
  assert (H1 : threeSpeeds "off" = true) by reflexivity.
  assert (H2 : threeSpeeds "min" = true) by reflexivity.
  assert (H3 : threeSpeeds "max" = true) by reflexivity.
  assert (H4 : forall fan, fan ∈ Cfg.fans (room lightOn) ->
             controlOf (roomStatus lightOn) fan = "manual" ->
             threeSpeeds (speedOf (roomStatus lightOn) fan) = true).
  { intros fan Hfan _. apply list_elem_of_singleton in Hfan. subst fan.
    reflexivity. }
  assert (H5 : forall fan x u, fan ∈ Cfg.fans (room lightOn) ->
             x ∈ Cfg.triggerLights fan ->
             lightSince (roomStatus lightOn) x = Some u -> validDate u = true).
  { intros fan x u Hfan Hx Hu. apply list_elem_of_singleton in Hfan. subst fan.
    apply list_elem_of_singleton in Hx. subst x.
    vm_compute in Hu. injection Hu as <-. reflexivity. }
  split; [exact H1|]. split; [exact H2|]. split; [exact H3|].
  exact (pass_completes threeSpeeds 701000 lightOn H1 H2 H3 H4 H5).
Defined.

Lemma bad_manual_speed_ends_pass_witness :
  controlOf (roomStatus turbo) bathFan = "manual"
  /\ threeSpeeds (speedOf (roomStatus turbo) bathFan) = false
  /\ updateFans threeSpeeds 1000 turbo
     = (Make (room turbo) (roomStatus turbo) (fansTrailing turbo),
        ([] ++ [Actuate (Cfg.id bathFan) (speedOf (roomStatus turbo) bathFan)])%list,
        Raised).
Proof.
  assert (H1 : Cfg.fans (room turbo) = ([] ++ bathFan :: [hallFan])%list)
    by reflexivity.
  assert (H2 : updateFansLoop threeSpeeds 1000 (room turbo) (roomStatus turbo)
                 (fansTrailing turbo) [] = (fansTrailing turbo, [], Next))
    by reflexivity.
  assert (H3 : controlOf (roomStatus turbo) bathFan = "manual") by reflexivity.
  assert (H4 : threeSpeeds (speedOf (roomStatus turbo) bathFan) = false)
    by reflexivity.
  split; [exact H3|]. split; [exact H4|].
  exact (bad_manual_speed_ends_pass threeSpeeds 1000 turbo [] bathFan [hallFan]
           (fansTrailing turbo) [] H1 H2 H3 H4).
Defined.

Lemma effects_are_about_configured_fans_witness :
  let this := bathAuto 85 (Entry (Some "off") None) ∅ in
  Publish "bath" "fan" "max" ∈ (updateFans threeSpeeds 1000 this).1.2
  /\ exists fan,
      fan ∈ Cfg.fans (room this)
      /\ effectFan (Publish "bath" "fan" "max") = Cfg.id fan
      /\ (isPublish (Publish "bath" "fan" "max") = true ->
          Publish "bath" "fan" "max"
          = Publish (Cfg.roomId (room this)) (Cfg.id fan)
              (effectSpeed (Publish "bath" "fan" "max"))
          /\ (effectSpeed (Publish "bath" "fan" "max") = "off"
              \/ effectSpeed (Publish "bath" "fan" "max") = "min"
              \/ effectSpeed (Publish "bath" "fan" "max") = "max")
          /\ controlOf (roomStatus this) fan <> "manual"
          /\ speedOf (roomStatus this) fan
             <> effectSpeed (Publish "bath" "fan" "max")).
Proof.
  intros this.
  assert (H1 : Publish "bath" "fan" "max" ∈ (updateFans threeSpeeds 1000 this).1.2)
    by left.
  split; [exact H1|].
  exact (effects_are_about_configured_fans threeSpeeds 1000 this
           (Publish "bath" "fan" "max") H1).
Defined.

Lemma pass_keeps_other_trailing_witness :
  let this := bathAuto 85 (Entry (Some "off") None) {["ghost" := true]} in
  ("ghost" ∉ fanIds (room this))
  /\ fansTrailing (updateFans threeSpeeds 1000 this).1.1 !! "ghost"
     = fansTrailing this !! "ghost".
Proof.
  intros this.
  assert (H1 : "ghost" ∉ fanIds (room this)).
  { apply not_elem_of_cons. split; [discriminate|apply not_elem_of_nil]. }
  split; [exact H1|].
  exact (pass_keeps_other_trailing threeSpeeds 1000 this "ghost" H1).
Defined.

Lemma speed_without_since_is_held_witness :
  let rs := roomStatus (bathAuto 50 (Entry (Some "max") None) ∅) in
  controlOf rs bathFan <> "manual"
  /\ speedOf rs bathFan <> "off"
  /\ 0 < minRunTimeOf rs bathFan
  /\ minRunTimeOf rs bathFan < exponentForm
  /\ updateFan threeSpeeds 999000 bath rs ∅ bathFan = (∅, [], Next).
Proof.
  intros rs.
  assert (H1 : controlOf rs bathFan <> "manual") by (vm_compute; discriminate).
  assert (H2 : speedOf rs bathFan <> "off") by (vm_compute; discriminate).
  assert (H3 : Status.fans rs !! Cfg.id bathFan
               ≫= (fun f => since (Status.speed f)) = None) by reflexivity.
  assert (H4 : 0 < minRunTimeOf rs bathFan) by reflexivity.
  assert (H5 : minRunTimeOf rs bathFan < exponentForm) by reflexivity.
  split; [exact H1|]. split; [exact H2|]. split; [exact H4|]. split; [exact H5|].
  exact (speed_without_since_is_held threeSpeeds 999000 bath rs ∅ bathFan
           H1 H2 H3 H4 H5).
Defined.

Lemma speed_feedback_settles_witness :
  let rs := roomStatus lightOn in
  automatic 701000 rs bathFan = true
  /\ guardedKey (Cfg.id bathFan) = false
  /\ (updateFan threeSpeeds 701000 bath
        (setFan (Cfg.id bathFan)
           (storeSpeed
              (Entry (Some (newSpeedOf rs bathFan (trailingStep 701000 rs bathFan ∅)))
                 (Some 701000))) rs)
        (trailingStep 701000 rs bathFan ∅) bathFan).1.2 = [].
Proof.
  intros rs.
  assert (H1 : automatic 701000 rs bathFan = true) by reflexivity.
  assert (H2 : guardedKey (Cfg.id bathFan) = false) by reflexivity.
  assert (H3 : forall x u, x ∈ Cfg.triggerLights bathFan ->
             lightSince rs x = Some u -> validDate u = true).
  { intros x u Hx Hu. apply list_elem_of_singleton in Hx. subst x.
    vm_compute in Hu. injection Hu as <-. reflexivity. }
  split; [exact H1|]. split; [exact H2|].
  exact (f_equal (fun r => r.1.2)
           (speed_feedback_settles threeSpeeds 701000 bath rs ∅ bathFan
              (Some 701000) H1 H2 H3)).
Defined.

Lemma override_round_trip_witness :
  guardedKey (Cfg.id bathFan) = false
  /\ forall d,
       resolved 1000
         (setFan (Cfg.id bathFan) (storeControl d) (roomStatus (constructor bath)))
         bathFan
       = (default "manual" (value d), speedOf (roomStatus (constructor bath)) bathFan,
          speedSinceOf 1000 (roomStatus (constructor bath)) bathFan,
          minHumidityThresholdOf (roomStatus (constructor bath)) bathFan,
          maxHumidityThresholdOf (roomStatus (constructor bath)) bathFan,
          minRunTimeOf (roomStatus (constructor bath)) bathFan,
          lightTimeoutOf (roomStatus (constructor bath)) bathFan,
          trailingTimeOf (roomStatus (constructor bath)) bathFan).
Proof.
  assert (H1 : guardedKey (Cfg.id bathFan) = false) by reflexivity.
  split; [exact H1|].
  exact (proj1 (proj1 (override_round_trip 1000 (roomStatus (constructor bath))
                         bathFan) H1)).
Defined.

Lemma first_pass_after_construction_witness :
  threeSpeeds "off" = true
  /\ updateFans threeSpeeds 1000 (constructor twoFans)
     = (constructor twoFans,
        map (fun fan => Actuate (Cfg.id fan) "off") (Cfg.fans twoFans),
        Next).
Proof.
  assert (H1 : threeSpeeds "off" = true) by reflexivity.
  split; [exact H1|].
  exact (proj2 (first_pass_after_construction threeSpeeds 1000 twoFans H1)).
Defined.

Lemma one_call_per_fan_not_held_witness :
  let this := bathAuto 85 (Entry (Some "off") None) ∅ in
  (updateFans threeSpeeds 1000 this).2 = Next
  /\ map effectFan
       (List.filter (fun e => negb (isPublish e))
          (updateFans threeSpeeds 1000 this).1.2)
     = map Cfg.id
         (List.filter (fun fan => negb (held 1000 (roomStatus this) fan))
            (Cfg.fans (room this))).
Proof.
  intros this.
  assert (H1 : (updateFans threeSpeeds 1000 this).2 = Next) by reflexivity.
  split; [exact H1|].
  exact (one_call_per_fan_not_held threeSpeeds 1000 this H1).
Defined.

Lemma fans_are_independent_witness :
  NoDup (fanIds (room (constructor twoFans)))
  /\ (updateFans threeSpeeds 1000 (constructor twoFans)).2 = Next
  /\ (updateFans threeSpeeds 1000 (constructor twoFans)).1.2
     = concat
         (map (fun fan =>
                 (updateFan threeSpeeds 1000 (room (constructor twoFans))
                    (roomStatus (constructor twoFans))
                    (fansTrailing (constructor twoFans)) fan).1.2)
            (Cfg.fans (room (constructor twoFans)))).
Proof.
  assert (H1 : NoDup (fanIds (room (constructor twoFans)))).
  { apply NoDup_cons. split.
    - apply not_elem_of_cons. split; [discriminate|apply not_elem_of_nil].
    - apply NoDup_cons. split; [apply not_elem_of_nil|apply NoDup_nil_2]. }
  assert (H2 : (updateFans threeSpeeds 1000 (constructor twoFans)).2 = Next)
    by reflexivity.
  split; [exact H1|]. split; [exact H2|].
  exact (proj1 (fans_are_independent threeSpeeds 1000 (constructor twoFans) H1 H2)).
Defined.

End RoomControl.

(** * Properties of the dispatcher *)

Module MainProperties.

Import Main.

Lemma split_segment (segment rest : string) :
  slashFree segment = true ->
  split (segment ++ String "/"%char rest) = segment :: split rest.
Proof.
  induction segment as [|c segment IH]; intros H; simpl in *.
  - reflexivity.
  - apply andb_prop in H. destruct H as [Hc Hs].
    apply negb_true_iff in Hc. rewrite Hc, (IH Hs). reflexivity.
Qed.

Lemma split_slashFree (segment : string) :
  slashFree segment = true -> split segment = [segment].
Proof.
  induction segment as [|c segment IH]; intros H; simpl in *.
  - reflexivity.
  - apply andb_prop in H. destruct H as [Hc Hs].
    apply negb_true_iff in Hc. rewrite Hc, (IH Hs). reflexivity.
Qed.

Lemma split_topicOf (segments : list string) :
  segments <> [] ->
  Forall (fun segment => slashFree segment = true) segments ->
  split (topicOf segments) = segments.
Proof.
  unfold topicOf. induction segments as [|x l IH]; intros Hne Hall; [congruence|].
  apply Forall_cons in Hall. destruct Hall as [Hx Hl].
  destruct l as [|y l].
  - simpl. apply split_slashFree, Hx.
  - change (String.concat "/" (x :: y :: l))
      with (x ++ String "/"%char (String.concat "/" (y :: l)))%string.
    rewrite (split_segment _ _ Hx), IH; [reflexivity|discriminate|exact Hl].
Qed.

(** X19.  Lines 89-105 of the main file: a topic [room/<room>/fans/<fan>/<member>]
    whose segments hold no slash makes one call, of the member [<member>] of
    the room [<room>] with the fan id; [room/<room>/lights/<light>] calls
    [lights] and [room/<room>/humidity] calls [humidity]; segments after
    these are not read. *)
Theorem topics_reach_their_member (r f member l : string) (more : list string) :
  slashFree r = true ->
  slashFree f = true ->
  slashFree member = true ->
  slashFree l = true ->
  Forall (fun segment => slashFree segment = true) more ->
  handleMqttMessage (topicOf ("room" :: r :: "fans" :: f :: member :: more))
    = [FanMember (Some r) (Some member) (Some f)]
  /\ handleMqttMessage (topicOf ("room" :: r :: "lights" :: l :: more))
     = [Lights (Some r) (Some l)]
  /\ handleMqttMessage (topicOf ("room" :: r :: "humidity" :: more))
     = [Humidity (Some r)].
Proof.
  intros Hr Hf Hm Hl Hmore. unfold handleMqttMessage.
  rewrite !split_topicOf; try discriminate;
    repeat (apply Forall_cons; split; [first [assumption|reflexivity]|]);
    try assumption.
  repeat split.
Qed.

(** X20.  Lines 97-105 of the main file: the handler makes at most one call,
    and none unless the first segment is [room] and the third is [fans],
    [lights] or [humidity].  A topic [room/<room>/temperature], which line
    125 subscribes to, makes no call. *)
Theorem other_topics_are_dropped (topic : string) :
  (length (handleMqttMessage topic) <= 1)%nat
  /\ (handleMqttMessage topic <> [] ->
      split topic !! 0%nat = Some "room"
      /\ (split topic !! 2%nat = Some "fans"
          \/ split topic !! 2%nat = Some "lights"
          \/ split topic !! 2%nat = Some "humidity"))
  /\ forall r more,
       slashFree r = true ->
       Forall (fun segment => slashFree segment = true) more ->
       handleMqttMessage (topicOf ("room" :: r :: "temperature" :: more)) = [].
Proof.
  split; [|split].
  - unfold handleMqttMessage.
    destruct (bool_decide (split topic !! 0%nat = Some "room")); simpl; [|lia].
    destruct (bool_decide (split topic !! 2%nat = Some "fans")) eqn:E1.
    + apply bool_decide_eq_true in E1. rewrite E1. simpl. lia.
    + destruct (bool_decide (split topic !! 2%nat = Some "lights")) eqn:E2.
      * apply bool_decide_eq_true in E2. rewrite E2. simpl. lia.
      * destruct (bool_decide (split topic !! 2%nat = Some "humidity")); simpl; lia.
  - unfold handleMqttMessage.
    destruct (bool_decide (split topic !! 0%nat = Some "room")) eqn:E0; simpl;
      [|congruence].
    apply bool_decide_eq_true in E0. intros H. split; [exact E0|].
    destruct (bool_decide (split topic !! 2%nat = Some "fans")) eqn:E1;
      [apply bool_decide_eq_true in E1; auto|].
    destruct (bool_decide (split topic !! 2%nat = Some "lights")) eqn:E2;
      [apply bool_decide_eq_true in E2; auto|].
    destruct (bool_decide (split topic !! 2%nat = Some "humidity")) eqn:E3;
      [apply bool_decide_eq_true in E3; auto|].
    simpl in H. congruence.
  - intros r more Hr Hmore. unfold handleMqttMessage.
    rewrite split_topicOf; try discriminate;
      repeat (apply Forall_cons; split; [first [assumption|reflexivity]|]);
      try assumption.
    reflexivity.
Qed.

Lemma topics_reach_their_member_witness :
  slashFree "bath" = true
  /\ handleMqttMessage (topicOf ["room"; "bath"; "fans"; "fan"; "speed"])
     = [FanMember (Some "bath") (Some "speed") (Some "fan")].
Proof.
  assert (H1 : slashFree "bath" = true) by reflexivity.
  assert (H2 : slashFree "fan" = true) by reflexivity.
  assert (H3 : slashFree "speed" = true) by reflexivity.
  assert (H4 : slashFree "light" = true) by reflexivity.
  assert (H5 : Forall (fun segment => slashFree segment = true) []) by constructor.
  split; [exact H1|].
  exact (proj1 (topics_reach_their_member "bath" "fan" "speed" "light" []
                  H1 H2 H3 H4 H5)).
Defined.

End MainProperties.
